(** * kpp-parsing: the preset pipeline of [src/index.ts]

    A shallow embedding of the brush-preset converter: the parameter
    flattening of the main loop, [parseBrushDefinition],
    [extractBrushParameters], [savePatternBitmap] and the per-file
    driver, over a model of the JavaScript values the markup parser
    hands to the program.

    The collaborators the program calls but does not define (the markup
    parser, the tag reader, the file system and the number conversions of
    the host language) are the fields of a record [Host]; every
    definition that calls one takes the host as a parameter. *)

From Stdlib Require Import List ZArith PrimFloat.
From Stdlib.Strings Require Import String Ascii Byte.
From stdpp Require Import base option list gmap strings.

#[local] Set Warnings "-register-all".
#[local] Open Scope string_scope.

(** ** JavaScript values *)

(** The values of the program are those of the parsed markup tree:
    attribute and text values (strings, numbers, booleans), records for
    elements, arrays for repeated elements, and the two absent values.
    Strings are sequences of code units below 256. *)
Inductive JsVal : Type :=
| JUndefined
| JNull
| JBool (b : bool)
| JNum (x : float)
| JStr (s : string)
| JObj (fields : gmap string JsVal)
| JArr (items : list JsVal).

(** ToBoolean: what [if (v)], [!v], [v || w] and [v && w] test. *)
Definition truthy (v : JsVal) : bool :=
  match v with
  | JUndefined | JNull => false
  | JBool b => b
  | JNum x => negb (PrimFloat.is_zero x || PrimFloat.is_nan x)
  | JStr s => negb (String.eqb s "")
  | JObj _ | JArr _ => true
  end.

(** [v === null || v === undefined]. *)
Definition nullish (v : JsVal) : bool :=
  match v with
  | JUndefined | JNull => true
  | _ => false
  end.

(** [v !== null && v !== undefined], the presence test of the source. *)
Definition present (v : JsVal) : bool := negb (nullish v).

(** [a || b]. *)
Definition or_else (a b : JsVal) : JsVal := if truthy a then a else b.

(** [Array.isArray(v)]. *)
Definition isArray (v : JsVal) : bool :=
  match v with
  | JArr _ => true
  | _ => false
  end.

(** [v.k] on a value that is neither null nor undefined.  The program
    reads only the keys name, value, text, cdata, Preset, param,
    paintopid, Brush, MaskGenerator, params, curve and the descriptor
    field names; none of them is a property that strings, numbers,
    booleans, arrays or plain records inherit, so only a record's own
    fields answer. *)
Definition prop (v : JsVal) (k : string) : JsVal :=
  match v with
  | JObj o => default JUndefined (o !! k)
  | _ => JUndefined
  end.

(** [v.k] where nothing guards [v]: reading a property of null or
    undefined throws a TypeError ([None]). *)
Definition read (v : JsVal) (k : string) : option JsVal :=
  if nullish v then None else Some (prop v k).

(** [v?.k]. *)
Definition read_opt (v : JsVal) (k : string) : JsVal :=
  if nullish v then JUndefined else prop v k.

(** ** The collaborators *)

(** The four output directories of the source. *)
Inductive OutDir := outputXmlDir | outputJsonDir | outputBrushesDir | outputPatternsDir.

Record Host := {
  (** Number::toString of the host language. *)
  number_to_string : float -> string;
  (** The number a decimal literal denotes (StringNumericValue), rounded
      as the host rounds it. *)
  string_numeric_value : string -> float;
  (** [xmlParser.parse] with the options of the source; [None] when it
      throws. *)
  xml_parse : JsVal -> option JsVal;
  (** [ExifReader.load(fs.readFileSync(path))] read at [tags.preset.value]:
      [None] when reading or loading throws, [Some None] when the file
      carries no preset tag. *)
  load_preset : string -> option (option string);
  (** Whether [fs.writeFileSync] to that directory and file name succeeds. *)
  write_ok : OutDir -> string -> bool
}.

(** ** String conversion and parseFloat *)

Section Conversions.
Context (host : Host).

(** ToString, as the conversion to a property key and [parseFloat] run
    it; [None] is the TypeError of a value that has no primitive value.
    A record is converted by its [toString] method, then its [valueOf].
    A record of the markup tree has no method of its own: when it has no
    own field [toString], the inherited method prints the fixed text of
    Object.prototype; when it has one (an attribute or a child so named),
    that field is not callable, the inherited [valueOf] returns the
    record itself, and the conversion throws.  An array joins the
    conversions of its items with commas, null and undefined items
    printing as nothing. *)
Fixpoint to_string (v : JsVal) : option string :=
  match v with
  | JUndefined => Some "undefined"
  | JNull => Some "null"
  | JBool true => Some "true"
  | JBool false => Some "false"
  | JNum x => Some (number_to_string host x)
  | JStr s => Some s
  | JObj o =>
      match o !! "toString" with
      | Some _ => None
      | None => Some "[object Object]"
      end
  | JArr items =>
      (fix join (l : list JsVal) : option string :=
         match l with
         | [] => Some ""
         | [e] => if nullish e then Some "" else to_string e
         | e :: r =>
             a ← (if nullish e then Some "" else to_string e);
             b ← join r;
             Some (a ++ "," ++ b)
         end) items
  end.

(** *** Scanning a decimal literal *)

Definition is_digit (c : ascii) : bool :=
  (N_of_ascii "0" <=? N_of_ascii c)%N && (N_of_ascii c <=? N_of_ascii "9")%N.

(** WhiteSpace and LineTerminator code units below 256: tab, line feed,
    vertical tab, form feed, carriage return, space, no-break space. *)
Definition is_space (c : ascii) : bool :=
  let n := N_of_ascii c in
  ((9 <=? n)%N && (n <=? 13)%N) || (n =? 32)%N || (n =? 160)%N.

Fixpoint take_while (p : ascii -> bool) (s : string) : string :=
  match s with
  | String c r => if p c then String c (take_while p r) else ""
  | EmptyString => ""
  end.

Fixpoint drop_while (p : ascii -> bool) (s : string) : string :=
  match s with
  | String c r => if p c then drop_while p r else s
  | EmptyString => ""
  end.

(** [strip_prefix p s] is [Some r] when [s] is [p] followed by [r]. *)
Fixpoint strip_prefix (p s : string) : option string :=
  match p, s with
  | EmptyString, _ => Some s
  | String a p', String b s' => if Ascii.eqb a b then strip_prefix p' s' else None
  | String _ _, EmptyString => None
  end.

Definition is_sign (c : ascii) : bool := Ascii.eqb c "+" || Ascii.eqb c "-".

(** ExponentPart at the head of [s], or the empty text when there is none. *)
Definition exponent_part (s : string) : string :=
  match s with
  | String c r =>
      if Ascii.eqb c "e" || Ascii.eqb c "E" then
        match r with
        | String d r' =>
            if is_sign d then
              if String.eqb (take_while is_digit r') "" then ""
              else String c (String d (take_while is_digit r'))
            else
              if String.eqb (take_while is_digit r) "" then ""
              else String c (take_while is_digit r)
        | EmptyString => ""
        end
      else ""
  | EmptyString => ""
  end.

(** The longest prefix of [s] that is a StrUnsignedDecimalLiteral. *)
Definition unsigned_decimal_prefix (s : string) : option string :=
  match strip_prefix "Infinity" s with
  | Some _ => Some "Infinity"
  | None =>
      let int := take_while is_digit s in
      match drop_while is_digit s with
      | String "." r =>
          let frac := take_while is_digit r in
          if String.eqb int "" && String.eqb frac "" then None
          else Some (int ++ "." ++ frac ++ exponent_part (drop_while is_digit r))
      | rest => if String.eqb int "" then None else Some (int ++ exponent_part rest)
      end
  end.

(** The longest prefix of [s] that is a StrDecimalLiteral (an optional
    sign, then an unsigned literal). *)
Definition decimal_prefix (s : string) : option string :=
  match s with
  | String c r =>
      if is_sign c
      then String c <$> unsigned_decimal_prefix r
      else unsigned_decimal_prefix s
  | EmptyString => None
  end.

(** [parseFloat(v)]: the argument is converted to a string (which may
    throw), leading white space is dropped, and the longest decimal
    literal at the head is read; when there is none the result is NaN. *)
Definition parseFloat (v : JsVal) : option float :=
  s ← to_string v;
  Some match decimal_prefix (drop_while is_space s) with
       | Some literal => string_numeric_value host literal
       | None => nan
       end.

End Conversions.

(** ** The parameter map *)

(** [transformedObj.parameters]: a plain object used as a map.  Its own
    properties are the entries the loop assigned.  Assigning to the key
    [__proto__] reaches the accessor every plain object inherits: it
    creates no own property, and replaces the object's prototype when
    the value is an object or null; a property that is not an own
    property is then read from that prototype. *)
Record ParameterMap := {
  own : gmap string JsVal;
  proto : option JsVal
}.

Definition empty_parameters : ParameterMap := {| own := ∅; proto := None |}.

(** [parameters[k] = v]. *)
Definition assign (m : ParameterMap) (k : string) (v : JsVal) : ParameterMap :=
  if String.eqb k "__proto__" then
    match v with
    | JObj _ | JArr _ | JNull => {| own := own m; proto := Some v |}
    | _ => m
    end
  else {| own := <[k := v]> (own m); proto := proto m |}.

(** [parameters[k]] for the keys the program reads. *)
Definition param (m : ParameterMap) (k : string) : JsVal :=
  match own m !! k with
  | Some v => v
  | None =>
      match proto m with
      | Some p => prop p k
      | None => JUndefined
      end
  end.

(** ** PresetDecoder: the main loop, lines 252-272 *)



Record TransformedObj := {
  name : JsVal;
  paintopid : JsVal;
  parameters : ParameterMap
}.

Section PresetDecoder.
Context (host : Host).

(** [param.value || param.text || param.cdata || ""]. *)
Definition param_value (p : JsVal) : JsVal :=
  or_else (prop p "value") (or_else (prop p "text") (or_else (prop p "cdata") (JStr ""))).

(** The body of [for (const param of params)]: the read of the name
    throws on a null entry, and the conversion of a truthy name to a
    property key throws when the name has no primitive value. *)
Definition flatten_step (acc : ParameterMap) (p : JsVal) : option ParameterMap :=
  nm ← read p "name";
  if truthy nm
  then key ← to_string host nm; Some (assign acc key (param_value p))
  else Some acc.

Fixpoint flatten_params (acc : ParameterMap) (params : list JsVal) : option ParameterMap :=
  match params with
  | [] => Some acc
  | p :: rest => acc' ← flatten_step acc p; flatten_params acc' rest
  end.

(** [p] is an entry the loop stores under the property key [k]: its name
    is truthy and converts to [k]. *)
Definition bears (k : string) (p : JsVal) : bool :=
  truthy (prop p "name")
  && match to_string host (prop p "name") with
     | Some key => String.eqb key k
     | None => false
     end.

(** An entry the loop can go through: it is not null or undefined, and
    its name, when truthy, converts to a property key. *)
Definition storable (p : JsVal) : Prop :=
  nullish p = false /\
  (truthy (prop p "name") = true -> is_Some (to_string host (prop p "name"))).

(** An entry on which the body of the loop throws: it is null or
    undefined, or its name is truthy and has no property key. *)
Definition throwing_entry (p : JsVal) : Prop :=
  nullish p = true \/
  (truthy (prop p "name") = true /\ to_string host (prop p "name") = None).

(** [Array.isArray(x) ? x : [x]]. *)
Definition as_sequence (x : JsVal) : list JsVal :=
  match x with
  | JArr items => items
  | _ => [x]
  end.

(** From the parsed tree to [transformedObj]; [None] when a TypeError
    escapes to the per-file handler. *)
Definition transform (jsonObj : JsVal) : option TransformedObj :=
  preset ← read jsonObj "Preset";
  ps ← (if truthy (read_opt preset "param")
        then flatten_params empty_parameters (as_sequence (read_opt preset "param"))
        else Some empty_parameters);
  Some {| name := or_else (read_opt preset "name") (JStr "");
          paintopid := or_else (read_opt preset "paintopid") (JStr "");
          parameters := ps |}.

End PresetDecoder.

(** ** BrushDescriptorDecoder: [parseBrushDefinition] *)

(** [result.maskGenerator]: each field is [brush.MaskGenerator.f || null]. *)
Module MaskGen.
Record t := {
  type : JsVal;
  diameter : JsVal;
  ratio : JsVal;
  hfade : JsVal;
  vfade : JsVal;
  spikes : JsVal
}.
End MaskGen.

(** [result]: each field is [brush.f || null]; [maskGenerator] is set
    only under [if (brush.MaskGenerator)]. *)
Module BrushDef.
Record t := {
  type : JsVal;
  spacing : JsVal;
  angle : JsVal;
  scale : JsVal;
  randomness : JsVal;
  density : JsVal;
  filename : JsVal;
  maskGenerator : option MaskGen.t
}.
End BrushDef.

Section ProjectionEngine.
Context (host : Host).

(** [brush.f || null]. *)
Definition or_null (o : JsVal) (f : string) : JsVal := or_else (prop o f) JNull.

Definition mask_of (mg : JsVal) : MaskGen.t :=
  {| MaskGen.type := or_null mg "type";
     MaskGen.diameter := or_null mg "diameter";
     MaskGen.ratio := or_null mg "ratio";
     MaskGen.hfade := or_null mg "hfade";
     MaskGen.vfade := or_null mg "vfade";
     MaskGen.spikes := or_null mg "spikes" |}.

(** [None] is the [null] the source returns, both from [if (!brush)] and
    from the [catch] around the parse and the read of [parsed.Brush]. *)
Definition parseBrushDefinition (brushDefXml : JsVal) : option BrushDef.t :=
  parsed ← xml_parse host brushDefXml;
  brush ← read parsed "Brush";
  if truthy brush then
    Some {| BrushDef.type := or_null brush "type";
            BrushDef.spacing := or_null brush "spacing";
            BrushDef.angle := or_null brush "angle";
            BrushDef.scale := or_null brush "scale";
            BrushDef.randomness := or_null brush "randomness";
            BrushDef.density := or_null brush "density";
            BrushDef.filename := or_null brush "filename";
            BrushDef.maskGenerator :=
              if truthy (prop brush "MaskGenerator")
              then Some (mask_of (prop brush "MaskGenerator"))
              else None |}
  else None.

(** ** ProjectionEngine: [extractBrushParameters] *)

(** [if (c) brushData[k] = v]. *)
Definition set_when (c : bool) (k : string) (v : JsVal)
    (brushData : gmap string JsVal) : gmap string JsVal :=
  if c then <[k := v]> brushData else brushData.

(** Lines 84-138: the fields taken from the brush definition. *)
Definition shape_fields (brushDef : BrushDef.t)
    (brushData : gmap string JsVal) : gmap string JsVal :=
  let d := set_when (present (BrushDef.spacing brushDef)) "spacing" (BrushDef.spacing brushDef) brushData in
  let d := set_when (present (BrushDef.angle brushDef)) "angle" (BrushDef.angle brushDef) d in
  let d := set_when (present (BrushDef.scale brushDef)) "scale" (BrushDef.scale brushDef) d in
  let d := set_when (present (BrushDef.randomness brushDef)) "randomness" (BrushDef.randomness brushDef) d in
  let d := set_when (present (BrushDef.density brushDef)) "density" (BrushDef.density brushDef) d in
  let d := set_when (truthy (BrushDef.filename brushDef)) "filename" (BrushDef.filename brushDef) d in
  let d := set_when (truthy (BrushDef.type brushDef)) "type" (BrushDef.type brushDef) d in
  match BrushDef.maskGenerator brushDef with
  | Some mg =>
      let d := set_when (present (MaskGen.diameter mg)) "size" (MaskGen.diameter mg) d in
      let d := set_when (present (MaskGen.ratio mg)) "roundness" (MaskGen.ratio mg) d in
      let d := set_when (present (MaskGen.hfade mg)) "hfade" (MaskGen.hfade mg) d in
      let d := set_when (present (MaskGen.vfade mg)) "vfade" (MaskGen.vfade mg) d in
      set_when (present (MaskGen.spikes mg)) "spikes" (MaskGen.spikes mg) d
  | None => d
  end.

Definition sensorMappings : list (string * string) :=
  [ ("OpacitySensor", "pressureOpacity");
    ("SizeSensor", "pressureSize");
    ("RotationSensor", "pressureRotation");
    ("ScatterSensor", "pressureScatter");
    ("FlowSensor", "pressureFlow") ].

(** The body of the loop over [Object.entries(sensorMappings)]. *)
Definition sensor_step (parameters : ParameterMap)
    (brushData : gmap string JsVal) (entry : string * string) : gmap string JsVal :=
  let paramKey := entry.1 in
  let outputKey := entry.2 in
  if truthy (param parameters paramKey) && truthy (prop (param parameters paramKey) "params")
  then
    let sensor := prop (param parameters paramKey) "params" in
    set_when (present (prop sensor "curve")) outputKey (prop sensor "curve") brushData
  else brushData.

(** The output keys the brush definition feeds. *)
Definition shape_keys : list string :=
  [ "type"; "spacing"; "angle"; "scale"; "randomness"; "density"; "filename";
    "size"; "roundness"; "hfade"; "vfade"; "spikes" ].

(** Lines 77-176 of [extractBrushParameters]: [brushData] as it stands
    before the pattern block.  Nothing here throws. *)
Definition before_pattern (parameters : ParameterMap) : gmap string JsVal :=
  let brushData : gmap string JsVal := ∅ in
  let brushData :=
    if truthy (param parameters "brush_definition") then
      match parseBrushDefinition (param parameters "brush_definition") with
      | Some brushDef => shape_fields brushDef brushData
      | None => brushData
      end
    else brushData in
  let brushData :=
    set_when (present (param parameters "OpacityValue")) "opacity"
      (param parameters "OpacityValue") brushData in
  let brushData :=
    set_when (present (param parameters "ScatterValue")) "scatter"
      (param parameters "ScatterValue") brushData in
  let brushData :=
    set_when (present (param parameters "FlowValue")) "flow"
      (param parameters "FlowValue") brushData in
  fold_left (sensor_step parameters) sensorMappings brushData.

(** Lines 178-196 on top of [before_pattern].  [None] is an exception
    thrown to the caller: the only call that can throw is [parseFloat],
    on a strength that cannot be converted to a string. *)
Definition extractBrushParameters (parameters : ParameterMap)
    : option (gmap string JsVal) :=
  let brushData := before_pattern parameters in
  if truthy (param parameters "Texture/Pattern/Pattern") then
    let brushData :=
      set_when (present (param parameters "Texture/Pattern/Scale")) "patternScale"
        (param parameters "Texture/Pattern/Scale") brushData in
    if present (param parameters "Texture/Pattern/Strength") then
      strength ← parseFloat host (param parameters "Texture/Pattern/Strength");
      Some (<["patternStrength" := JNum strength]> brushData)
    else Some brushData
  else Some brushData.

(** The strength, when the projection reads it, can be converted to a
    string: [parseFloat] does not throw. *)
Definition strength_converts (parameters : ParameterMap) : Prop :=
  truthy (param parameters "Texture/Pattern/Pattern") = true ->
  present (param parameters "Texture/Pattern/Strength") = true ->
  is_Some (to_string host (param parameters "Texture/Pattern/Strength")).

End ProjectionEngine.

(** A field of the brush markup is carried: when the source has it with a
    truthy value, the descriptor slot holds that value and the brush
    output has it under [key]; when the source lacks it, the output has
    no such key. *)
Definition carried (source : option JsVal) (slot : JsVal)
    (out : gmap string JsVal) (key : string) : Prop :=
  (forall v, source = Some v -> truthy v = true -> slot = v /\ out !! key = Some v) /\
  (source = None -> out !! key = None).

(** ** PatternExtractor: [savePatternBitmap] *)

(** [\w] of a regular expression without flags. *)
Definition is_word (c : ascii) : bool :=
  let n := N_of_ascii c in
  ((65 <=? n)%N && (n <=? 90)%N) || ((97 <=? n)%N && (n <=? 122)%N)
  || is_digit c || Ascii.eqb c "_".

(** [base64Data.replace(/^data:image\/\w+;base64,/, "")]: the pattern is
    anchored at the start and has no global flag, so at most one match,
    at position 0, is removed.  [\w+] is greedy, and the character after
    it must be [;], which is not a word character, so the longest run of
    word characters is the only candidate. *)
Definition strip_data_uri (base64Data : string) : string :=
  match strip_prefix "data:image/" base64Data with
  | Some r =>
      if String.eqb (take_while is_word r) "" then base64Data
      else
        match strip_prefix ";base64," (drop_while is_word r) with
        | Some payload => payload
        | None => base64Data
        end
  | None => base64Data
  end.

(** The value of a character of the base64 alphabets (the standard one
    and the URL-safe one, which the decoder also accepts). *)
Definition base64_digit (c : ascii) : option N :=
  let n := N_of_ascii c in
  if (65 <=? n)%N && (n <=? 90)%N then Some (n - 65)%N
  else if (97 <=? n)%N && (n <=? 122)%N then Some (n - 71)%N
  else if is_digit c then Some (n + 4)%N
  else if Ascii.eqb c "+" || Ascii.eqb c "-" then Some 62%N
  else if Ascii.eqb c "/" || Ascii.eqb c "_" then Some 63%N
  else None.

(** The decoder of [Buffer.from(s, "base64")] never fails: it skips the
    characters outside the alphabet and stops at the first [=]. *)
Fixpoint base64_digits (s : string) : list N :=
  match s with
  | String c r =>
      if Ascii.eqb c "=" then []
      else
        match base64_digit c with
        | Some d => d :: base64_digits r
        | None => base64_digits r
        end
  | EmptyString => []
  end.

Definition byte_of (n : N) : byte := default x00 (Byte.of_N (n mod 256)%N).

Fixpoint base64_bytes (digits : list N) : list byte :=
  match digits with
  | a :: b :: c :: d :: rest =>
      byte_of (a * 4 + b / 16) :: byte_of (b * 16 + c / 4) :: byte_of (c * 64 + d)
      :: base64_bytes rest
  | [a; b; c] => [byte_of (a * 4 + b / 16); byte_of (b * 16 + c / 4)]
  | [a; b] => [byte_of (a * 4 + b / 16)]
  | _ => []
  end.

Definition base64_decode (s : string) : list byte := base64_bytes (base64_digits s).

(** The characters of a base64 payload: the standard alphabet and the
    padding sign. *)
Definition is_base64 (c : ascii) : bool :=
  let n := N_of_ascii c in
  ((65 <=? n)%N && (n <=? 90)%N) || ((97 <=? n)%N && (n <=? 122)%N)
  || is_digit c || Ascii.eqb c "+" || Ascii.eqb c "/" || Ascii.eqb c "=".

Fixpoint all_chars (p : ascii -> bool) (s : string) : bool :=
  match s with
  | String c r => p c && all_chars p r
  | EmptyString => true
  end.

(** The bytes [savePatternBitmap] hands to [fs.writeFileSync]. *)
Definition pattern_bytes (base64Data : string) : list byte :=
  base64_decode (strip_data_uri base64Data).

(** ** Effects: the files written, and exceptions *)

(** What is handed to the file system: the metadata text, the object
    given to [JSON.stringify] for the preset and for the brush (the
    printer itself is not modelled: it prints the own properties, and a
    NaN as null), or the bytes of a pattern. *)
Inductive Content :=
| RawText (text : string)
| PresetJson (t : TransformedObj)
| BrushJson (name paintopid : JsVal) (brush : gmap string JsVal)
| Bitmap (bytes : list byte).

Record FileWrite := {
  dir : OutDir;
  fileName : string;
  data : Content
}.

(** A computation that appends to the list of files written and either
    returns a value or throws ([None]); what was written before the throw
    stays written. *)
Definition Eff (A : Type) : Type := list FileWrite -> list FileWrite * option A.

Definition eff_ret {A} (a : A) : Eff A := fun ws => (ws, Some a).

Definition eff_bind {A B} (m : Eff A) (f : A -> Eff B) : Eff B :=
  fun ws =>
    match m ws with
    | (ws', Some a) => f a ws'
    | (ws', None) => (ws', None)
    end.

(** An exception of the pure part ([None]) becomes a throw. *)
Definition eff_try {A} (o : option A) : Eff A := fun ws => (ws, o).

Notation "'do' x <- m ; f" := (eff_bind m (fun x => f))
  (at level 10, x name, m at level 100, f at level 200,
   format "'[v' 'do'  x  <-  m ; '/' f ']'").

Section Driver.
Context (host : Host).

(** [fs.writeFileSync(path.join(dir, fileName), data)]. *)
Definition writeFileSync (d : OutDir) (f : string) (c : Content) : Eff unit :=
  fun ws =>
    if write_ok host d f
    then ((ws ++ [{| dir := d; fileName := f; data := c |}])%list, Some tt)
    else (ws, None).

(** [writeToDisk]: the directory is created when missing, then the file
    is written; a failure of either is a failed write. *)
Definition writeToDisk (c : Content) (outputPath : OutDir) (f : string) : Eff unit :=
  writeFileSync outputPath f c.

(** [savePatternBitmap]: [true] after the write, [false] when the body
    threw.  A value that is not a string has no [replace] method, so the
    call throws a TypeError; for a string only the write can throw. *)
Definition savePatternBitmap (base64Data : JsVal) (d : OutDir) (f : string) : Eff bool :=
  fun ws =>
    match base64Data with
    | JStr s =>
        match writeFileSync d f (Bitmap (pattern_bytes s)) ws with
        | (ws', Some _) => (ws', Some true)
        | (ws', None) => (ws', Some false)
        end
    | _ => (ws, Some false)
    end.

(** [path.basename(file, ".kpp")] for a directory entry that ends in
    [.kpp]. *)
Definition baseName_of (file : string) : string :=
  substring 0 (String.length file - 4) file.

Inductive Outcome := Skipped | Completed.

(** The body of the [try] of the main loop for one directory entry.  A
    result [None] is an exception caught by the per-file [catch]. *)
Definition processFile (file : string) : Eff Outcome :=
  let baseName := baseName_of file in
  do tag <- eff_try (load_preset host file);
  match tag with
  | None => eff_ret Skipped
  | Some text =>
      if negb (truthy (JStr text)) then eff_ret Skipped
      else
        do jsonObj <- eff_try (xml_parse host (JStr text));
        do transformedObj <- eff_try (transform host jsonObj);
        do _ <- writeToDisk (RawText text) outputXmlDir (baseName ++ ".xml");
        do _ <- writeToDisk (PresetJson transformedObj) outputJsonDir (baseName ++ ".json");
        do brushData <- eff_try (extractBrushParameters host (parameters transformedObj));
        do brushData <-
          (if truthy (param (parameters transformedObj) "Texture/Pattern/Pattern") then
             do saved <- savePatternBitmap
                           (param (parameters transformedObj) "Texture/Pattern/Pattern")
                           outputPatternsDir (baseName ++ "_pattern.png");
             eff_ret (if saved : bool
                      then <["patternFile" := JStr (baseName ++ "_pattern.png")]> brushData
                      else brushData)
           else eff_ret brushData);
        do _ <- writeFileSync outputBrushesDir (baseName ++ "_brush.json")
                  (BrushJson (name transformedObj) (paintopid transformedObj) brushData);
        eff_ret Completed
  end.

(** The loop over the directory entries: each entry runs inside its own
    [try], so the files written accumulate and the batch goes on after a
    throw. *)
Definition processAll (files : list string) : list FileWrite :=
  fold_left (fun ws file => (processFile file ws).1) files [].

End Driver.

(** ** The directory listing, lines 25 and 235 *)

(** [s.endsWith(suffix)]. *)
Definition endsWith (s suffix : string) : bool :=
  (String.length suffix <=? String.length s)%nat
  && String.eqb
       (substring (String.length s - String.length suffix) (String.length suffix) s)
       suffix.

(** [fs.readdirSync(kppDir).filter((file) => file.endsWith(".kpp"))]. *)
Definition kpp_files (entries : list string) : list string :=
  List.filter (fun file => endsWith file ".kpp") entries.

(** The whole run over the entries of the input directory. *)
Definition main (host : Host) (entries : list string) : list FileWrite :=
  processAll host (kpp_files entries).

(** The file name the driver derives from the base name, by directory. *)
Definition suffix_of (d : OutDir) : string :=
  match d with
  | outputXmlDir => ".xml"
  | outputJsonDir => ".json"
  | outputBrushesDir => "_brush.json"
  | outputPatternsDir => "_pattern.png"
  end.

(** Every key [extractBrushParameters] assigns. *)
Definition output_keys : list string :=
  (shape_keys ++
   [ "opacity"; "scatter"; "flow";
     "pressureOpacity"; "pressureSize"; "pressureRotation"; "pressureScatter";
     "pressureFlow"; "patternScale"; "patternStrength" ])%list.

(** ** Sample inputs

    The host of the examples.  The markup parser is given at the few
    texts the examples use, as the tree the parser of the source builds
    for them under its options (attributes without prefix, attribute and
    tag values parsed, [text] and [cdata] fields); at any other text the
    sample parser throws.  The number conversions are given at 0, 0.5,
    2 and 50, the only numbers of the examples (no example converts a
    number; the fields are there because a host has them). *)

Definition record (fields : list (string * JsVal)) : JsVal := JObj (list_to_map fields).

Definition sample_parse (v : JsVal) : option JsVal :=
  match v with
  | JStr "<Other/>" => Some (record [("Other", JStr "")])
  | JStr "<Preset name='Ink' paintopid='paintbrush'><param name='OpacityValue' value='0'/></Preset>" =>
      Some (record [("Preset", record [
        ("name", JStr "Ink"); ("paintopid", JStr "paintbrush");
        ("param", record [("name", JStr "OpacityValue"); ("value", JNum 0)])])])
  | JStr "<Preset name='Ink' paintopid='paintbrush'><param name='Texture/Pattern/Pattern'><![CDATA[SGk=]]></param><param name='OpacityValue' value='0.5'/></Preset>" =>
      Some (record [("Preset", record [
        ("name", JStr "Ink"); ("paintopid", JStr "paintbrush");
        ("param", JArr [
           record [("name", JStr "Texture/Pattern/Pattern"); ("cdata", JStr "SGk=")];
           record [("name", JStr "OpacityValue"); ("value", JNum 0.5)]])])])
  | JStr "<Brush spacing='0'><MaskGenerator type='circle'/></Brush>" =>
      Some (record [("Brush", record [
        ("spacing", JNum 0);
        ("MaskGenerator", record [("type", JStr "circle")])])])
  | JStr "<Preset><param name='Texture/Pattern/Pattern'>SGk=</param><param name='Texture/Pattern/Strength'><value><toString>x</toString></value></param></Preset>" =>
      Some (record [("Preset", record [
        ("param", JArr [
           record [("name", JStr "Texture/Pattern/Pattern"); ("text", JStr "SGk=")];
           record [("name", JStr "Texture/Pattern/Strength");
                   ("value", record [("toString", JStr "x")])]])])])
  | JStr "<Brush" => None
  | JStr "<Brush type='auto' spacing='0.5'><MaskGenerator diameter='50' ratio='2'/></Brush>" =>
      Some (record [("Brush", record [
        ("type", JStr "auto"); ("spacing", JNum 0.5);
        ("MaskGenerator", record [("diameter", JNum 50); ("ratio", JNum 2)])])])
  | _ => None
  end.

Definition sample_load (file : string) : option (option string) :=
  match file with
  | "other.kpp" => Some (Some "<Other/>")
  | "ink.kpp" =>
      Some (Some "<Preset name='Ink' paintopid='paintbrush'><param name='Texture/Pattern/Pattern'><![CDATA[SGk=]]></param><param name='OpacityValue' value='0.5'/></Preset>")
  | "plain.kpp" => Some None
  | "strength.kpp" =>
      Some (Some "<Preset><param name='Texture/Pattern/Pattern'>SGk=</param><param name='Texture/Pattern/Strength'><value><toString>x</toString></value></param></Preset>")
  | _ => None
  end.

Definition sample_host : Host :=
  {| number_to_string := fun x =>
       if (x =? 50)%float then "50" else if (x =? 2)%float then "2"
       else if (x =? 0.5)%float then "0.5" else "0";
     string_numeric_value := fun literal =>
       if String.eqb literal "50" then 50%float
       else if String.eqb literal "2" then 2%float
       else if String.eqb literal "0.5" then 0.5%float else 0%float;
     xml_parse := sample_parse;
     load_preset := sample_load;
     write_ok := fun _ _ => true |}.

(** A parameter map with the given own properties and the default
    prototype. *)
Definition parameters_of (entries : list (string * JsVal)) : ParameterMap :=
  {| own := list_to_map entries; proto := None |}.

(** What the driver writes for [ink.kpp] under the sample host: the raw
    text, the preset object, the decoded pattern and the brush output. *)
Definition ink_brush : gmap string JsVal :=
  {[ "opacity" := JNum 0.5; "patternFile" := JStr "ink_pattern.png" ]}.

Definition ink_run : list FileWrite :=
  [ {| dir := outputXmlDir; fileName := "ink.xml";
       data := RawText "<Preset name='Ink' paintopid='paintbrush'><param name='Texture/Pattern/Pattern'><![CDATA[SGk=]]></param><param name='OpacityValue' value='0.5'/></Preset>" |};
    {| dir := outputJsonDir; fileName := "ink.json";
       data := PresetJson {| name := JStr "Ink"; paintopid := JStr "paintbrush";
                             parameters := parameters_of [
                               ("Texture/Pattern/Pattern", JStr "SGk=");
                               ("OpacityValue", JNum 0.5)] |} |};
    {| dir := outputPatternsDir; fileName := "ink_pattern.png";
       data := Bitmap ["H"; "i"]%byte |};
    {| dir := outputBrushesDir; fileName := "ink_brush.json";
       data := BrushJson (JStr "Ink") (JStr "paintbrush") ink_brush |} ].

(** * Properties *)

(** ** Reading and truthiness *)

Lemma truthy_not_nullish v : truthy v = true -> nullish v = false.
Proof. by destruct v. Qed.

Lemma read_Some v k : nullish v = false -> read v k = Some (prop v k).
Proof. unfold read. by intros ->. Qed.

Lemma or_else_truthy a b : truthy a = true -> or_else a b = a.
Proof. unfold or_else. by intros ->. Qed.

Lemma or_else_falsy a b : truthy a = false -> or_else a b = b.
Proof. unfold or_else. by intros ->. Qed.

Lemma prop_lookup o k v : o !! k = Some v -> prop (JObj o) k = v.
Proof. simpl. by intros ->. Qed.

Lemma prop_absent o k : o !! k = None -> prop (JObj o) k = JUndefined.
Proof. simpl. by intros ->. Qed.

Lemma read_opt_record o k : read_opt (JObj o) k = default JUndefined (o !! k).
Proof. reflexivity. Qed.

(** ** The brush output, key by key *)

Lemma lookup_set_when c k v (d : gmap string JsVal) k' :
  set_when c k v d !! k' = if c && String.eqb k k' then Some v else d !! k'.
Proof.
  unfold set_when. destruct c; simpl; [|done].
  destruct (String.eqb_spec k k') as [->|Hne].
  - apply lookup_insert_eq.
  - by apply lookup_insert_ne.
Qed.

(** ** The parameter map built by the loop *)

Lemma own_assign m k v k' :
  k' <> "__proto__" ->
  own (assign m k v) !! k' = if String.eqb k k' then Some v else own m !! k'.
Proof.
  intros Hk'. unfold assign.
  destruct (String.eqb_spec k "__proto__") as [->|Hk].
  - destruct (String.eqb_spec "__proto__" k') as [E|_]; [by symmetry in E|].
    by destruct v.
  - simpl. destruct (String.eqb_spec k k') as [->|Hne].
    + apply lookup_insert_eq.
    + by apply lookup_insert_ne.
Qed.

Lemma own_flatten_step host acc p acc' k :
  flatten_step host acc p = Some acc' ->
  k <> "__proto__" ->
  own acc' !! k = if bears host k p then Some (param_value p) else own acc !! k.
Proof.
  unfold flatten_step, bears, read. intros Hstep Hk.
  destruct (nullish p); [done|]. simpl in Hstep.
  destruct (truthy (prop p "name")); simpl.
  - destruct (to_string host (prop p "name")) as [key|]; [|done].
    injection Hstep as <-. by apply own_assign.
  - by injection Hstep as <-.
Qed.

Lemma flatten_step_returns host acc p :
  storable host p -> is_Some (flatten_step host acc p).
Proof.
  intros [Hp Hname]. unfold flatten_step. rewrite read_Some by done. simpl.
  destruct (truthy _); [|eauto].
  destruct (Hname eq_refl) as [key ->]. simpl. eauto.
Qed.

Lemma flatten_params_returns host ps : forall acc,
  Forall (storable host) ps -> is_Some (flatten_params host acc ps).
Proof.
  induction ps as [|p ps IH]; intros acc Hall; simpl; [eauto|].
  apply Forall_cons in Hall as [Hp Hps].
  destruct (flatten_step_returns host acc p Hp) as [acc' ->]. simpl. by apply IH.
Qed.

Lemma own_flatten_params host ps : forall acc m k,
  flatten_params host acc ps = Some m ->
  k <> "__proto__" ->
  own m !! k =
    match last (List.filter (bears host k) ps) with
    | Some p => Some (param_value p)
    | None => own acc !! k
    end.
Proof.
  induction ps as [|p ps IH]; intros acc m k Hrun Hk; simpl in *.
  - by injection Hrun as <-.
  - destruct (flatten_step host acc p) as [acc'|] eqn:Hstep; [|done]. simpl in Hrun.
    rewrite (IH _ _ _ Hrun Hk), (own_flatten_step _ _ _ _ _ Hstep Hk).
    destruct (bears host k p); [|done].
    rewrite last_cons. by destruct (last _).
Qed.




(** Three entries, two of them named [a]: the later one wins. *)
Example repeated_name_output :
  parameters <$> transform sample_host
    (record [("Preset", record [("param", JArr [
       record [("name", JStr "a"); ("value", JStr "1")];
       record [("name", JStr "b"); ("cdata", JStr "x")];
       record [("name", JStr "a"); ("text", JStr "2")]])])])
  = Some (parameters_of [("a", JStr "2"); ("b", JStr "x")]).
Proof. vm_compute. reflexivity. Qed.



(** A name that is a record with a field [toString] of its own has no
    primitive value: the assignment throws, and the decoder with it. *)
Example unconvertible_name_throws :
  transform sample_host
    (record [("Preset", record [("param", JArr [
       record [("name", JStr "a"); ("value", JStr "1")];
       record [("name", record [("toString", JStr "x")]); ("value", JStr "2")]])])])
  = None.
Proof. vm_compute. reflexivity. Qed.

Lemma flatten_params_app host l1 : forall acc l2,
  flatten_params host acc (l1 ++ l2)%list =
  acc' ← flatten_params host acc l1; flatten_params host acc' l2.
Proof.
  induction l1 as [|p l1 IH]; intros acc l2; simpl; [done|].
  destruct (flatten_step host acc p) as [acc'|]; simpl; [apply IH|done].
Qed.

(** C9: a single param entry (neither an array nor absent) decodes
    exactly as the same entry wrapped in a one-element array; the loop
    always runs over [as_sequence], which is the one-element list for
    it. *)
Theorem single_param_is_wrapped host (o p : gmap string JsVal) v :
  o !! "Preset" = Some (JObj p) ->
  p !! "param" = Some v ->
  isArray v = false ->
  nullish v = false ->
  as_sequence v = [v] /\
  transform host (JObj o) =
  transform host (JObj (<["Preset" := JObj (<["param" := JArr [v]]> p)]> o)).
Proof.
  intros Hpreset Hparam Harr Hv. split; [by destruct v|].
  unfold transform. rewrite !read_Some by done.
  rewrite (prop_lookup _ _ _ Hpreset).
  rewrite (prop_lookup _ "Preset" (JObj (<["param" := JArr [v]]> p)))
    by apply lookup_insert_eq.
  simpl. rewrite !read_opt_record.
  rewrite Hparam, lookup_insert_eq, !lookup_insert_ne by done. simpl.
  destruct (truthy v) eqn:Htruthy.
  - by destruct v.
  - unfold flatten_step. rewrite read_Some by done.
    by destruct v.
Qed.

Lemma single_param_is_wrapped_witness :
  as_sequence (record [("name", JStr "OpacityValue"); ("value", JNum 0.5)]) =
    [record [("name", JStr "OpacityValue"); ("value", JNum 0.5)]] /\
  transform sample_host
    (JObj {[ "Preset" := JObj {[ "param" :=
       record [("name", JStr "OpacityValue"); ("value", JNum 0.5)] ]} ]}) =
  transform sample_host
    (JObj (<["Preset" := JObj (<["param" := JArr [
       record [("name", JStr "OpacityValue"); ("value", JNum 0.5)]]]>
         {[ "param" := record [("name", JStr "OpacityValue"); ("value", JNum 0.5)] ]})]>
       {[ "Preset" := JObj {[ "param" :=
       record [("name", JStr "OpacityValue"); ("value", JNum 0.5)] ]} ]})).
Proof.
  apply (single_param_is_wrapped sample_host); reflexivity.
Defined.

(** C10: an entry whose name field is present but falsy (the empty
    string, the number 0, false) is skipped without an error and adds no
    key, exactly like the same entry without its name field: the loop
    returns the map it was given, and replacing the entry by the nameless
    one anywhere in the list changes nothing. *)
Theorem falsy_name_is_skipped host acc (o : gmap string JsVal) n l1 l2 :
  o !! "name" = Some n ->
  truthy n = false ->
  flatten_step host acc (JObj o) = Some acc /\
  flatten_step host acc (JObj (delete "name" o)) = Some acc /\
  flatten_params host acc (l1 ++ JObj o :: l2)%list =
  flatten_params host acc (l1 ++ JObj (delete "name" o) :: l2)%list.
Proof.
  intros Hname Hfalsy.
  assert (Hwith : forall a, flatten_step host a (JObj o) = Some a).
  { intros a. unfold flatten_step. rewrite read_Some by done.
    rewrite (prop_lookup _ _ _ Hname). simpl. by rewrite Hfalsy. }
  assert (Hwithout : forall a, flatten_step host a (JObj (delete "name" o)) = Some a).
  { intros a. unfold flatten_step. rewrite read_Some by done.
    by rewrite prop_absent by apply lookup_delete_eq. }
  repeat split; [apply Hwith|apply Hwithout|].
  rewrite !flatten_params_app.
  destruct (flatten_params host acc l1) as [a|]; simpl; [|done].
  by rewrite Hwith, Hwithout.
Qed.

Lemma falsy_name_is_skipped_witness :
  flatten_step sample_host empty_parameters (JObj {[ "name" := JNum 0; "value" := JStr "x" ]})
    = Some empty_parameters /\
  flatten_step sample_host empty_parameters
    (JObj (delete "name" ({[ "name" := JNum 0; "value" := JStr "x" ]} : gmap string JsVal)))
    = Some empty_parameters /\
  flatten_params sample_host empty_parameters
    ([record [("name", JStr "a")]] ++
     JObj {[ "name" := JNum 0; "value" := JStr "x" ]} :: [record [("name", JStr "b")]])%list =
  flatten_params sample_host empty_parameters
    ([record [("name", JStr "a")]] ++
     JObj (delete "name" ({[ "name" := JNum 0; "value" := JStr "x" ]} : gmap string JsVal))
       :: [record [("name", JStr "b")]])%list.
Proof.
  apply (falsy_name_is_skipped sample_host empty_parameters _ (JNum 0)); reflexivity.
Defined.

Lemma lookup_sensor_step parameters d entry k :
  sensor_step parameters d entry !! k =
    if truthy (param parameters entry.1)
       && truthy (prop (param parameters entry.1) "params")
       && present (prop (prop (param parameters entry.1) "params") "curve")
       && String.eqb entry.2 k
    then Some (prop (prop (param parameters entry.1) "params") "curve")
    else d !! k.
Proof.
  unfold sensor_step.
  destruct (truthy (param parameters entry.1) && truthy (prop (param parameters entry.1) "params")); simpl; [|done].
  apply lookup_set_when.
Qed.

(** Rewrites a lookup in the brush output into the chain of tests that
    decides it, and evaluates the comparisons of literal keys. *)
Ltac brush_lookup :=
  rewrite ?lookup_set_when; cbn [fold_left sensorMappings];
  rewrite ?lookup_sensor_step, ?lookup_set_when;
  cbn [String.eqb Ascii.eqb Bool.eqb fst snd];
  rewrite ?andb_false_r, ?andb_true_r.

Lemma lookup_shape_fields_other brushDef (d : gmap string JsVal) k :
  k ∉ shape_keys -> shape_fields brushDef d !! k = d !! k.
Proof.
  intros Hk. unfold shape_fields.
  destruct (BrushDef.maskGenerator brushDef); rewrite !lookup_set_when;
    repeat match goal with
    | |- context [String.eqb ?a k] =>
        destruct (String.eqb_spec a k) as [<-|_];
        [exfalso; apply Hk; unfold shape_keys; set_solver|]
    end;
    by rewrite ?andb_false_r.
Qed.

(** The keys of the first stage: nothing but shape keys. *)
Lemma lookup_shape_stage_other host parameters k :
  k ∉ shape_keys ->
  (if truthy (param parameters "brush_definition") then
     match parseBrushDefinition host (param parameters "brush_definition") with
     | Some brushDef => shape_fields brushDef ∅
     | None => ∅
     end
   else ∅) !! k = None.
Proof.
  intros Hk. destruct (truthy _); [|done].
  destruct (parseBrushDefinition _ _); [|done].
  by rewrite lookup_shape_fields_other.
Qed.

Lemma not_shape_key k : (forallb (fun s => negb (String.eqb s k)) shape_keys) = true -> k ∉ shape_keys.
Proof.
  intros Hall Hin. apply list_elem_of_In in Hin.
  rewrite forallb_forall in Hall. specialize (Hall _ Hin).
  by rewrite String.eqb_refl in Hall.
Qed.

Lemma lookup_before_pattern_shape host P k :
  k ∈ shape_keys ->
  before_pattern host P !! k =
    (if truthy (param P "brush_definition") then
       match parseBrushDefinition host (param P "brush_definition") with
       | Some brushDef => shape_fields brushDef ∅
       | None => ∅
       end
     else ∅) !! k.
Proof.
  intros Hk. unfold before_pattern, shape_keys in *.
  repeat (apply elem_of_cons in Hk as [-> | Hk]); try (brush_lookup; done).
  by apply elem_of_nil in Hk.
Qed.

(** Nothing before the pattern block writes a pattern key. *)
Lemma lookup_before_pattern_pattern host P k :
  k ∈ ["patternScale"; "patternStrength"; "patternFile"] ->
  before_pattern host P !! k = None.
Proof.
  intros Hk. unfold before_pattern.
  repeat (apply elem_of_cons in Hk as [-> | Hk]);
    try (brush_lookup; rewrite lookup_shape_stage_other by (by apply not_shape_key); done).
  by apply elem_of_nil in Hk.
Qed.

Lemma parseFloat_None host v : parseFloat host v = None <-> to_string host v = None.
Proof. unfold parseFloat. by destruct (to_string host v). Qed.

(** The function returns exactly when the strength, if it is read,
    converts to a string. *)
Lemma extract_returns host P :
  is_Some (extractBrushParameters host P) <-> strength_converts host P.
Proof.
  unfold extractBrushParameters, strength_converts.
  destruct (truthy (param P "Texture/Pattern/Pattern")); [|split; [done|eauto]].
  destruct (present (param P "Texture/Pattern/Strength")); [|split; [done|eauto]].
  unfold parseFloat.
  destruct (to_string host (param P "Texture/Pattern/Strength")); simpl.
  - split; eauto.
  - split; [by intros [? ?]|]. intros Hconv. by destruct (Hconv eq_refl eq_refl).
Qed.

(** The output, key by key, over [before_pattern]. *)
Lemma lookup_extract host P out k :
  extractBrushParameters host P = Some out ->
  out !! k =
    if truthy (param P "Texture/Pattern/Pattern")
       && present (param P "Texture/Pattern/Strength")
       && String.eqb "patternStrength" k
    then JNum <$> parseFloat host (param P "Texture/Pattern/Strength")
    else if truthy (param P "Texture/Pattern/Pattern")
            && present (param P "Texture/Pattern/Scale")
            && String.eqb "patternScale" k
    then Some (param P "Texture/Pattern/Scale")
    else before_pattern host P !! k.
Proof.
  unfold extractBrushParameters. intros Hout.
  destruct (truthy (param P "Texture/Pattern/Pattern")); cbn [andb].
  - destruct (present (param P "Texture/Pattern/Strength")); cbn [andb].
    + destruct (parseFloat host (param P "Texture/Pattern/Strength")) as [x|]; [|done].
      cbn [mbind option_bind] in Hout. injection Hout as <-.
      destruct (String.eqb_spec "patternStrength" k) as [<-|Hne].
      * by rewrite lookup_insert_eq.
      * rewrite lookup_insert_ne by done. apply lookup_set_when.
    + injection Hout as <-. apply lookup_set_when.
  - by injection Hout as <-.
Qed.

(** Rewrites a lookup in the output of [extractBrushParameters] (given
    the equation of the call) into the tests that decide it. *)
Ltac output_lookup Hout :=
  rewrite ?(lookup_extract _ _ _ _ Hout);
  cbn [String.eqb Ascii.eqb Bool.eqb];
  rewrite ?andb_false_r, ?andb_true_r;
  cbn [String.eqb Ascii.eqb Bool.eqb].

Lemma lookup_extract_shape_key host P out k :
  extractBrushParameters host P = Some out ->
  k ∈ shape_keys ->
  out !! k =
    (if truthy (param P "brush_definition") then
       match parseBrushDefinition host (param P "brush_definition") with
       | Some brushDef => shape_fields brushDef ∅
       | None => ∅
       end
     else ∅) !! k.
Proof.
  intros Hout Hk. rewrite <- lookup_before_pattern_shape by done.
  unfold shape_keys in Hk.
  repeat (apply elem_of_cons in Hk as [-> | Hk]); try (by output_lookup Hout).
  by apply elem_of_nil in Hk.
Qed.

(** The poisoned strength used below: a record with a field [toString]
    of its own, as [<value><toString>x</toString></value>] parses to. *)
Example record_with_toString_has_no_string :
  to_string sample_host (record [("toString", JStr "x")]) = None
  /\ parseFloat sample_host (record [("toString", JStr "x")]) = None
  /\ to_string sample_host (record [("value", JStr "x")]) = Some "[object Object]".
Proof. repeat split; vm_compute; reflexivity. Qed.

(** C4, as the source has it: the function returns unless the pattern
    parameter is truthy and the strength is present and cannot be
    converted to a string; in the output it returns, [patternScale] and
    [patternStrength] are emitted exactly when the parameter
    [Texture/Pattern/Pattern] is truthy and their own source parameter
    is present; the scale is passed through, the strength goes through
    [parseFloat]. *)
Theorem pattern_fields_need_pattern host P :
  match extractBrushParameters host P with
  | Some out =>
      strength_converts host P /\
      out !! "patternScale" =
        (if truthy (param P "Texture/Pattern/Pattern") && present (param P "Texture/Pattern/Scale")
         then Some (param P "Texture/Pattern/Scale") else None) /\
      out !! "patternStrength" =
        (if truthy (param P "Texture/Pattern/Pattern") && present (param P "Texture/Pattern/Strength")
         then JNum <$> parseFloat host (param P "Texture/Pattern/Strength") else None)
  | None =>
      truthy (param P "Texture/Pattern/Pattern") = true /\
      present (param P "Texture/Pattern/Strength") = true /\
      to_string host (param P "Texture/Pattern/Strength") = None
  end.
Proof.
  destruct (extractBrushParameters host P) as [out|] eqn:Hout.
  - split; [apply extract_returns; by rewrite Hout|].
    split; output_lookup Hout.
    all: rewrite lookup_before_pattern_pattern by set_solver.
    all: by destruct (truthy _ && present _).
  - unfold extractBrushParameters in Hout.
    destruct (truthy (param P "Texture/Pattern/Pattern")); [|done].
    destruct (present (param P "Texture/Pattern/Strength")); [|done].
    split; [done|]. split; [done|]. apply parseFloat_None.
    by destruct (parseFloat host _).
Qed.

(** C4 as stated fails: scale and strength are present, the pattern
    parameter is not, and neither key is emitted. *)
Lemma pattern_scale_without_pattern :
  param (parameters_of [("Texture/Pattern/Scale", JNum 2); ("Texture/Pattern/Strength", JNum 0.5)])
    "Texture/Pattern/Scale" = JNum 2
  /\ extractBrushParameters sample_host
       (parameters_of [("Texture/Pattern/Scale", JNum 2); ("Texture/Pattern/Strength", JNum 0.5)])
     = Some ∅.
Proof. split; vm_compute; reflexivity. Qed.

(** C8, as the source has it: when the parameter
    [Texture/Pattern/Pattern] is truthy and [Texture/Pattern/Strength]
    is present and converts to a text that does not start (after white
    space) with a decimal literal, the function returns and
    [patternStrength] is emitted and is NaN. *)
Theorem non_numeric_strength_is_nan host P s :
  truthy (param P "Texture/Pattern/Pattern") = true ->
  present (param P "Texture/Pattern/Strength") = true ->
  to_string host (param P "Texture/Pattern/Strength") = Some s ->
  decimal_prefix (drop_while is_space s) = None ->
  exists out,
    extractBrushParameters host P = Some out
    /\ out !! "patternStrength" = Some (JNum nan)
    /\ PrimFloat.is_nan nan = true.
Proof.
  intros Hpattern Hstrength Hs Hprefix.
  assert (Hfloat : parseFloat host (param P "Texture/Pattern/Strength") = Some nan).
  { unfold parseFloat. rewrite Hs. simpl. by rewrite Hprefix. }
  destruct (proj2 (extract_returns host P)) as [out Hout].
  { intros _ _. by rewrite Hs. }
  exists out. split; [done|]. split; [|reflexivity].
  output_lookup Hout. by rewrite Hpattern, Hstrength, Hfloat.
Qed.

Lemma non_numeric_strength_is_nan_witness :
  exists out,
    extractBrushParameters sample_host
      (parameters_of [("Texture/Pattern/Pattern", JStr "SGk="); ("Texture/Pattern/Strength", JStr "abc")])
    = Some out
    /\ out !! "patternStrength" = Some (JNum nan)
    /\ PrimFloat.is_nan nan = true.
Proof.
  apply (non_numeric_strength_is_nan sample_host
           (parameters_of [("Texture/Pattern/Pattern", JStr "SGk=");
                           ("Texture/Pattern/Strength", JStr "abc")]) "abc"); reflexivity.
Defined.

(** C8 as stated fails: the strength is present and not numeric, the
    pattern parameter is absent, and the field is dropped. *)
Lemma non_numeric_strength_dropped :
  param (parameters_of [("Texture/Pattern/Strength", JStr "abc")]) "Texture/Pattern/Strength"
    = JStr "abc"
  /\ extractBrushParameters sample_host (parameters_of [("Texture/Pattern/Strength", JStr "abc")])
     = Some ∅.
Proof. split; vm_compute; reflexivity. Qed.



(** The output of the sample above: no shape key, the opacity and the
    opacity curve. *)
Example no_descriptor_output :
  extractBrushParameters sample_host (parameters_of [
    ("brush_definition", JStr "<Brush");
    ("OpacityValue", JNum 0.5);
    ("OpacitySensor", record [("params", record [("curve", JStr "0,0;1,1;")])]) ])
  = Some {[ "opacity" := JNum 0.5; "pressureOpacity" := JStr "0,0;1,1;" ]}.
Proof. vm_compute. reflexivity. Qed.


(** ** The brush definition *)

Lemma or_null_truthy (o : gmap string JsVal) f v :
  o !! f = Some v -> truthy v = true -> or_null (JObj o) f = v /\ present v = true /\ truthy v = true.
Proof.
  intros Hf Hv. unfold or_null. rewrite (prop_lookup _ _ _ Hf), (or_else_truthy _ _ Hv).
  split; [done|]. split; [|done]. unfold present. by rewrite truthy_not_nullish.
Qed.

Lemma or_null_absent (o : gmap string JsVal) f :
  o !! f = None -> or_null (JObj o) f = JNull.
Proof. intros Hf. unfold or_null. by rewrite (prop_absent _ _ Hf). Qed.

Lemma shape_key_literal k :
  existsb (String.eqb k) shape_keys = true -> k ∈ shape_keys.
Proof.
  intros Hex. apply existsb_exists in Hex as (s & Hin & Heq).
  apply String.eqb_eq in Heq as ->. by apply list_elem_of_In.
Qed.

Lemma carried_present (o : gmap string JsVal) f (out : gmap string JsVal) key :
  out !! key =
    (if present (or_null (JObj o) f) then Some (or_null (JObj o) f) else None) ->
  carried (o !! f) (or_null (JObj o) f) out key.
Proof.
  intros Hlookup. unfold carried. rewrite Hlookup. split.
  - intros v Hs Hv. by destruct (or_null_truthy _ _ _ Hs Hv) as (-> & -> & _).
  - intros Hs. by rewrite (or_null_absent _ _ Hs).
Qed.

Lemma carried_truthy (o : gmap string JsVal) f (out : gmap string JsVal) key :
  out !! key =
    (if truthy (or_null (JObj o) f) then Some (or_null (JObj o) f) else None) ->
  carried (o !! f) (or_null (JObj o) f) out key.
Proof.
  intros Hlookup. unfold carried. rewrite Hlookup. split.
  - intros v Hs Hv. by destruct (or_null_truthy _ _ _ Hs Hv) as (-> & _ & ->).
  - intros Hs. by rewrite (or_null_absent _ _ Hs).
Qed.

Ltac split_all := repeat match goal with |- _ /\ _ => split end.

(** C2, as the source has it: for a brush definition that parses to a
    [Brush] record, when the function returns (the strength, if read,
    converts to a string), each descriptor field (type, spacing, angle,
    scale, randomness, density, filename) present with a truthy value is
    in the descriptor and in the brush output under its own name, and a
    field the markup lacks is not in the output.  The same holds for the
    fields diameter, ratio, hfade, vfade and spikes of a mask generator
    that is a record, which go to the keys size, roundness, hfade, vfade
    and spikes; the type of the mask generator is kept in the descriptor
    only.  Without a mask generator, or with one that is no record (an
    empty element, a text, a list of several), none of its five keys is
    in the output. *)
Theorem truthy_shape_fields_are_carried host P (top b : gmap string JsVal) :
  truthy (param P "brush_definition") = true ->
  xml_parse host (param P "brush_definition") = Some (JObj top) ->
  top !! "Brush" = Some (JObj b) ->
  strength_converts host P ->
  exists brushDef out,
    parseBrushDefinition host (param P "brush_definition") = Some brushDef /\
    extractBrushParameters host P = Some out /\
    carried (b !! "type") (BrushDef.type brushDef) out "type" /\
    carried (b !! "spacing") (BrushDef.spacing brushDef) out "spacing" /\
    carried (b !! "angle") (BrushDef.angle brushDef) out "angle" /\
    carried (b !! "scale") (BrushDef.scale brushDef) out "scale" /\
    carried (b !! "randomness") (BrushDef.randomness brushDef) out "randomness" /\
    carried (b !! "density") (BrushDef.density brushDef) out "density" /\
    carried (b !! "filename") (BrushDef.filename brushDef) out "filename" /\
    match b !! "MaskGenerator" with
    | Some (JObj mg) =>
        exists mask,
          BrushDef.maskGenerator brushDef = Some mask /\
          (forall v, mg !! "type" = Some v -> truthy v = true -> MaskGen.type mask = v) /\
          carried (mg !! "diameter") (MaskGen.diameter mask) out "size" /\
          carried (mg !! "ratio") (MaskGen.ratio mask) out "roundness" /\
          carried (mg !! "hfade") (MaskGen.hfade mask) out "hfade" /\
          carried (mg !! "vfade") (MaskGen.vfade mask) out "vfade" /\
          carried (mg !! "spikes") (MaskGen.spikes mask) out "spikes"
    | Some _ =>
        forall k, k ∈ ["size"; "roundness"; "hfade"; "vfade"; "spikes"] -> out !! k = None
    | None =>
        BrushDef.maskGenerator brushDef = None /\
        forall k, k ∈ ["size"; "roundness"; "hfade"; "vfade"; "spikes"] -> out !! k = None
    end.
Proof.
  intros Hdef Hparse Hbrush Hconv.
  destruct (proj2 (extract_returns host P) Hconv) as [out Hextract].
  set (generator :=
    if truthy (prop (JObj b) "MaskGenerator")
    then Some (mask_of (prop (JObj b) "MaskGenerator")) else None).
  assert (Hdescriptor : parseBrushDefinition host (param P "brush_definition") =
    Some {| BrushDef.type := or_null (JObj b) "type";
            BrushDef.spacing := or_null (JObj b) "spacing";
            BrushDef.angle := or_null (JObj b) "angle";
            BrushDef.scale := or_null (JObj b) "scale";
            BrushDef.randomness := or_null (JObj b) "randomness";
            BrushDef.density := or_null (JObj b) "density";
            BrushDef.filename := or_null (JObj b) "filename";
            BrushDef.maskGenerator := generator |}).
  { unfold parseBrushDefinition. rewrite Hparse. cbn [mbind option_bind].
    unfold read. cbn [nullish]. cbn [mbind option_bind].
    by rewrite (prop_lookup _ _ _ Hbrush). }
  eexists. exists out. split; [exact Hdescriptor|]. split; [done|].
  assert (Hout : forall k, k ∈ shape_keys ->
    out !! k =
    shape_fields {| BrushDef.type := or_null (JObj b) "type";
            BrushDef.spacing := or_null (JObj b) "spacing";
            BrushDef.angle := or_null (JObj b) "angle";
            BrushDef.scale := or_null (JObj b) "scale";
            BrushDef.randomness := or_null (JObj b) "randomness";
            BrushDef.density := or_null (JObj b) "density";
            BrushDef.filename := or_null (JObj b) "filename";
            BrushDef.maskGenerator := generator |} ∅ !! k).
  { intros k Hk. by rewrite (lookup_extract_shape_key _ _ _ _ Hextract Hk), Hdef, Hdescriptor. }
  clear Hdescriptor Hparse Hbrush Hdef Hextract Hconv.
  cbn [BrushDef.type BrushDef.spacing BrushDef.angle BrushDef.scale BrushDef.randomness
       BrushDef.density BrushDef.filename BrushDef.maskGenerator].
  unfold shape_fields in Hout.
  cbn [BrushDef.type BrushDef.spacing BrushDef.angle BrushDef.scale BrushDef.randomness
       BrushDef.density BrushDef.filename BrushDef.maskGenerator] in Hout.
  assert (Hgenerator :
    match b !! "MaskGenerator" with
    | Some (JObj mg) => generator = Some (mask_of (JObj mg))
    | Some _ =>
        generator = None \/
        generator = Some {| MaskGen.type := JNull; MaskGen.diameter := JNull;
                            MaskGen.ratio := JNull; MaskGen.hfade := JNull;
                            MaskGen.vfade := JNull; MaskGen.spikes := JNull |}
    | None => generator = None
    end).
  { unfold generator. destruct (b !! "MaskGenerator") as [v|] eqn:Hmask.
    - rewrite (prop_lookup _ _ _ Hmask).
      destruct v as [ | |[]|x|s|mg|items]; try done;
        try destruct (truthy (JNum x)); try destruct (truthy (JStr s));
        first [by left | by right].
    - by rewrite (prop_absent _ _ Hmask). }
  clearbody generator.
  destruct (b !! "MaskGenerator") as [v|].
  - destruct v as [ | | | | |mg| ]; try (destruct Hgenerator as [-> | ->]); try subst generator.
    all: cbn [mask_of MaskGen.type MaskGen.diameter MaskGen.ratio MaskGen.hfade MaskGen.vfade
              MaskGen.spikes] in Hout.
    all: split_all;
      try (first
             [ apply carried_present;
               rewrite Hout by (by apply shape_key_literal); brush_lookup; done
             | apply carried_truthy;
               rewrite Hout by (by apply shape_key_literal); brush_lookup; done ]).
    all: try (intros k Hk;
      repeat (apply elem_of_cons in Hk as [-> | Hk]);
      try (rewrite Hout by (by apply shape_key_literal); brush_lookup; done);
      by apply elem_of_nil in Hk).
    eexists. split; [reflexivity|].
    cbn [mask_of MaskGen.type MaskGen.diameter MaskGen.ratio MaskGen.hfade MaskGen.vfade
         MaskGen.spikes].
    split_all;
      try (apply carried_present;
           rewrite Hout by (by apply shape_key_literal); brush_lookup; done).
    intros v Hs Hv. by destruct (or_null_truthy _ _ _ Hs Hv) as (-> & _).
  - subst generator.
    split_all;
      try (first
             [ apply carried_present;
               rewrite Hout by (by apply shape_key_literal); brush_lookup; done
             | apply carried_truthy;
               rewrite Hout by (by apply shape_key_literal); brush_lookup; done ]).
    { reflexivity. }
    intros k Hk.
    repeat (apply elem_of_cons in Hk as [-> | Hk]);
      try (rewrite Hout by (by apply shape_key_literal); brush_lookup; done).
    by apply elem_of_nil in Hk.
Qed.

Lemma truthy_shape_fields_are_carried_witness :
  let mg : gmap string JsVal := list_to_map [("diameter", JNum 50); ("ratio", JNum 2)] in
  let b : gmap string JsVal :=
    list_to_map [("type", JStr "auto"); ("spacing", JNum 0.5); ("MaskGenerator", JObj mg)] in
  let P := parameters_of [("brush_definition",
             JStr "<Brush type='auto' spacing='0.5'><MaskGenerator diameter='50' ratio='2'/></Brush>")] in
  exists brushDef out,
    parseBrushDefinition sample_host (param P "brush_definition") = Some brushDef /\
    extractBrushParameters sample_host P = Some out /\
    carried (b !! "type") (BrushDef.type brushDef) out "type" /\
    carried (b !! "spacing") (BrushDef.spacing brushDef) out "spacing" /\
    carried (b !! "angle") (BrushDef.angle brushDef) out "angle" /\
    carried (b !! "scale") (BrushDef.scale brushDef) out "scale" /\
    carried (b !! "randomness") (BrushDef.randomness brushDef) out "randomness" /\
    carried (b !! "density") (BrushDef.density brushDef) out "density" /\
    carried (b !! "filename") (BrushDef.filename brushDef) out "filename" /\
    exists mask,
      BrushDef.maskGenerator brushDef = Some mask /\
      (forall v, mg !! "type" = Some v -> truthy v = true -> MaskGen.type mask = v) /\
      carried (mg !! "diameter") (MaskGen.diameter mask) out "size" /\
      carried (mg !! "ratio") (MaskGen.ratio mask) out "roundness" /\
      carried (mg !! "hfade") (MaskGen.hfade mask) out "hfade" /\
      carried (mg !! "vfade") (MaskGen.vfade mask) out "vfade" /\
      carried (mg !! "spikes") (MaskGen.spikes mask) out "spikes".
Proof.
  intros mg b P.
  apply (truthy_shape_fields_are_carried sample_host P
           (list_to_map [("Brush", JObj b)]) b).
  - reflexivity.
  - reflexivity.
  - reflexivity.
  - intros Hpattern. discriminate Hpattern.
Defined.

(** The brush output of that sample. *)
Example sample_brush_output :
  extractBrushParameters sample_host (parameters_of [("brush_definition",
    JStr "<Brush type='auto' spacing='0.5'><MaskGenerator diameter='50' ratio='2'/></Brush>")])
  = Some {[ "type" := JStr "auto"; "spacing" := JNum 0.5; "size" := JNum 50; "roundness" := JNum 2 ]}.
Proof. vm_compute. reflexivity. Qed.

(** C2 as stated fails twice on [<Brush spacing='0'><MaskGenerator
    type='circle'/></Brush>]: the spacing is present with the value zero
    and becomes null in the descriptor, and the type of the mask
    generator, kept in the descriptor, has no key in the output; the
    brush output is empty. *)
Lemma zero_spacing_and_mask_type_dropped :
  xml_parse sample_host (JStr "<Brush spacing='0'><MaskGenerator type='circle'/></Brush>")
    = Some (record [("Brush", record [
        ("spacing", JNum 0); ("MaskGenerator", record [("type", JStr "circle")])])])
  /\ parseBrushDefinition sample_host
       (JStr "<Brush spacing='0'><MaskGenerator type='circle'/></Brush>")
     = Some {| BrushDef.type := JNull; BrushDef.spacing := JNull; BrushDef.angle := JNull;
               BrushDef.scale := JNull; BrushDef.randomness := JNull;
               BrushDef.density := JNull; BrushDef.filename := JNull;
               BrushDef.maskGenerator :=
                 Some {| MaskGen.type := JStr "circle"; MaskGen.diameter := JNull;
                         MaskGen.ratio := JNull; MaskGen.hfade := JNull;
                         MaskGen.vfade := JNull; MaskGen.spikes := JNull |} |}
  /\ extractBrushParameters sample_host (parameters_of [("brush_definition",
       JStr "<Brush spacing='0'><MaskGenerator type='circle'/></Brush>")]) = Some ∅.
Proof. repeat split; vm_compute; reflexivity. Qed.

(** ** The pattern payload *)

Lemma strip_prefix_app p s : strip_prefix p (p ++ s) = Some s.
Proof. induction p as [|a p IH]; simpl; [done|]. by rewrite Ascii.eqb_refl. Qed.

Lemma strip_prefix_Some p : forall s r, strip_prefix p s = Some r -> s = p ++ r.
Proof.
  induction p as [|a p IH]; intros s r; simpl.
  - by intros [= ->].
  - destruct s as [|c s]; [done|].
    destruct (Ascii.eqb_spec a c) as [->|]; [|done].
    intros Hr. by rewrite (IH _ _ Hr).
Qed.

Lemma all_chars_app p s r : all_chars p (s ++ r) = all_chars p s && all_chars p r.
Proof. induction s as [|c s IH]; simpl; [done|]. by rewrite IH, andb_assoc. Qed.

(** A run of characters satisfying [p], followed by one that does not,
    is what [take_while] takes and [drop_while] leaves. *)
Lemma take_drop_while_run p s c r :
  all_chars p s = true -> p c = false ->
  take_while p (s ++ String c r) = s /\ drop_while p (s ++ String c r) = String c r.
Proof.
  intros Hs Hc. induction s as [|a s IH]; simpl in *.
  - by rewrite Hc.
  - apply andb_true_iff in Hs as [-> Hs]. destruct (IH Hs) as [-> ->]. done.
Qed.

Lemma strip_data_uri_base64 b : all_chars is_base64 b = true -> strip_data_uri b = b.
Proof.
  intros Hb. unfold strip_data_uri.
  destruct (strip_prefix "data:image/" b) as [r|] eqn:Hprefix; [|done].
  apply strip_prefix_Some in Hprefix. subst b.
  rewrite all_chars_app in Hb. by apply andb_true_iff in Hb as [Hb _].
Qed.

Lemma strip_data_uri_header subtype b :
  subtype <> "" -> all_chars is_word subtype = true ->
  strip_data_uri ("data:image/" ++ subtype ++ ";base64," ++ b) = b.
Proof.
  intros Hne Hword. unfold strip_data_uri. rewrite strip_prefix_app.
  change (";base64," ++ b) with (String ";" ("base64," ++ b)).
  destruct (take_drop_while_run is_word subtype ";" ("base64," ++ b) Hword eq_refl)
    as [-> ->].
  destruct subtype; [done|]. reflexivity.
Qed.

(** C7, as the source has it: for a header [data:image/<subtype>;base64,]
    whose subtype is a non-empty run of word characters (letters, digits,
    underscore) and a payload over the base64 alphabet, the prefixed
    payload is stripped to the payload and decodes to the same bytes as
    the bare payload. *)
Theorem data_uri_prefix_is_stripped subtype b :
  subtype <> "" ->
  all_chars is_word subtype = true ->
  all_chars is_base64 b = true ->
  strip_data_uri ("data:image/" ++ subtype ++ ";base64," ++ b) = b /\
  pattern_bytes ("data:image/" ++ subtype ++ ";base64," ++ b) = pattern_bytes b.
Proof.
  intros Hne Hword Hb. unfold pattern_bytes.
  rewrite (strip_data_uri_header _ _ Hne Hword), (strip_data_uri_base64 _ Hb). done.
Qed.

Lemma data_uri_prefix_is_stripped_witness :
  strip_data_uri ("data:image/" ++ "png" ++ ";base64," ++ "SGVsbG8=") = "SGVsbG8=" /\
  pattern_bytes ("data:image/" ++ "png" ++ ";base64," ++ "SGVsbG8=") = pattern_bytes "SGVsbG8=".
Proof.
  apply (data_uri_prefix_is_stripped "png" "SGVsbG8="); [discriminate|reflexivity|reflexivity].
Defined.

(** The payload of the witness decodes to the five bytes of "Hello". *)
Example hello_bytes :
  pattern_bytes "data:image/png;base64,SGVsbG8=" = ["H"; "e"; "l"; "l"; "o"]%byte.
Proof. reflexivity. Qed.

(** C7 as stated fails for the subtype [svg+xml]: the header is not a
    match of the pattern, nothing is stripped, and the decoder reads the
    header's letters as payload. *)
Lemma svg_header_is_not_stripped :
  strip_data_uri "data:image/svg+xml;base64,AAAA" = "data:image/svg+xml;base64,AAAA"
  /\ pattern_bytes "AAAA" = [x00; x00; x00]
  /\ length (pattern_bytes "data:image/svg+xml;base64,AAAA") = 20.
Proof. repeat split; vm_compute; reflexivity. Qed.

(** ** The per-file driver *)

Lemma extract_no_parameters host : extractBrushParameters host empty_parameters = Some ∅.
Proof. reflexivity. Qed.

Lemma lookup_patternFile host P out :
  extractBrushParameters host P = Some out -> out !! "patternFile" = None.
Proof.
  intros Hout. output_lookup Hout. apply lookup_before_pattern_pattern. set_solver.
Qed.

(** C3, as the source has it: when the parsed metadata has no [Preset]
    root, or the root has no [param] list, the decoder does not abort.
    It yields a [{ name, paintopid, parameters }] object whose parameter
    map is empty (name and paintopid are the empty string when the root
    is missing), and, the writes succeeding, the file is processed to
    the end: the raw text, that object and a brush output with no field
    are written. *)
Theorem missing_root_or_params_is_written host file text (o : gmap string JsVal) ws :
  load_preset host file = Some (Some text) ->
  text <> "" ->
  xml_parse host (JStr text) = Some (JObj o) ->
  (o !! "Preset" = None
   \/ exists preset, o !! "Preset" = Some preset /\ read_opt preset "param" = JUndefined) ->
  write_ok host outputXmlDir (baseName_of file ++ ".xml") = true ->
  write_ok host outputJsonDir (baseName_of file ++ ".json") = true ->
  write_ok host outputBrushesDir (baseName_of file ++ "_brush.json") = true ->
  exists t,
    transform host (JObj o) = Some t /\
    parameters t = empty_parameters /\
    (o !! "Preset" = None -> name t = JStr "" /\ paintopid t = JStr "") /\
    processFile host file ws =
      ((ws ++ [ {| dir := outputXmlDir; fileName := baseName_of file ++ ".xml";
                   data := RawText text |};
                {| dir := outputJsonDir; fileName := baseName_of file ++ ".json";
                   data := PresetJson t |};
                {| dir := outputBrushesDir; fileName := baseName_of file ++ "_brush.json";
                   data := BrushJson (name t) (paintopid t) ∅ |} ])%list,
       Some Completed).
Proof.
  intros Hload Htext Hparse Hmissing Hxml Hjson Hbrush.
  assert (Hparam : read_opt (prop (JObj o) "Preset") "param" = JUndefined).
  { destruct Hmissing as [Hroot | (preset & Hroot & Hparam)].
    - by rewrite (prop_absent _ _ Hroot).
    - by rewrite (prop_lookup _ _ _ Hroot). }
  assert (Htransform : transform host (JObj o) =
    Some {| name := or_else (read_opt (prop (JObj o) "Preset") "name") (JStr "");
            paintopid := or_else (read_opt (prop (JObj o) "Preset") "paintopid") (JStr "");
            parameters := empty_parameters |}).
  { unfold transform. rewrite read_Some by done. cbn [mbind option_bind].
    by rewrite Hparam. }
  eexists. split; [exact Htransform|]. split; [done|]. split.
  { intros Hroot. simpl. by rewrite Hroot. }
  unfold processFile, eff_bind, eff_try, eff_ret, writeToDisk, writeFileSync.
  rewrite Hload.
  assert (Htruthy : truthy (JStr text) = true).
  { simpl. by destruct (String.eqb_spec text "") as [->|]. }
  rewrite Htruthy. cbn [negb]. rewrite Hparse, Htransform, Hxml, Hjson.
  cbn [parameters name paintopid]. rewrite extract_no_parameters.
  change (truthy (param empty_parameters "Texture/Pattern/Pattern")) with false.
  cbn iota. rewrite Hbrush. by rewrite <- !app_assoc.
Qed.

Lemma missing_root_or_params_is_written_witness :
  exists t,
    transform sample_host (JObj (list_to_map [("Other", JStr "")])) = Some t /\
    parameters t = empty_parameters /\
    ((list_to_map [("Other", JStr "")] : gmap string JsVal) !! "Preset" = None ->
       name t = JStr "" /\ paintopid t = JStr "") /\
    processFile sample_host "other.kpp" [] =
      (([] ++ [ {| dir := outputXmlDir; fileName := baseName_of "other.kpp" ++ ".xml";
                   data := RawText "<Other/>" |};
                {| dir := outputJsonDir; fileName := baseName_of "other.kpp" ++ ".json";
                   data := PresetJson t |};
                {| dir := outputBrushesDir; fileName := baseName_of "other.kpp" ++ "_brush.json";
                   data := BrushJson (name t) (paintopid t) ∅ |} ])%list,
       Some Completed).
Proof.
  apply (missing_root_or_params_is_written sample_host "other.kpp" "<Other/>"
           (list_to_map [("Other", JStr "")]) []);
    first [reflexivity | discriminate | by left].
Defined.

(** C3 as stated fails: the metadata [<Other/>] has no preset root, and
    the file is not aborted; all three outputs are written, the preset
    object with empty name, paintopid and parameters. *)
Lemma missing_root_is_not_aborted :
  processFile sample_host "other.kpp" [] =
    ([ {| dir := outputXmlDir; fileName := "other.xml"; data := RawText "<Other/>" |};
       {| dir := outputJsonDir; fileName := "other.json";
          data := PresetJson {| name := JStr ""; paintopid := JStr "";
                                parameters := empty_parameters |} |};
       {| dir := outputBrushesDir; fileName := "other_brush.json";
          data := BrushJson (JStr "") (JStr "") ∅ |} ],
     Some Completed).
Proof. vm_compute. reflexivity. Qed.

(** [savePatternBitmap] never throws, and answers [true] exactly when it
    wrote the decoded bytes. *)
Lemma savePatternBitmap_true host v d f ws ws' :
  savePatternBitmap host v d f ws = (ws', Some true) <->
  exists s, v = JStr s /\ write_ok host d f = true /\
    ws' = (ws ++ [{| dir := d; fileName := f; data := Bitmap (pattern_bytes s) |}])%list.
Proof.
  unfold savePatternBitmap, writeFileSync. split.
  - intros Hsave. destruct v; simplify_eq/=.
    destruct (write_ok host d f) eqn:Hok; simplify_eq/=. eauto.
  - intros (s & -> & Hok & ->). by rewrite Hok.
Qed.

Lemma savePatternBitmap_returns host v d f ws :
  exists ws' saved, savePatternBitmap host v d f ws = (ws', Some saved).
Proof.
  unfold savePatternBitmap, writeFileSync.
  destruct v; eauto. destruct (write_ok host d f); eauto.
Qed.

(** C6: in the brush output written for a file, the key [patternFile]
    is present exactly when [savePatternBitmap] succeeded, that is when
    the pattern file [<base>_pattern.png] was written; and when present
    its value is that file name. *)
Theorem patternFile_iff_pattern_saved host file ws r nm pid brush :
  processFile host file [] = (ws, r) ->
  {| dir := outputBrushesDir; fileName := baseName_of file ++ "_brush.json";
     data := BrushJson nm pid brush |} ∈ ws ->
  (is_Some (brush !! "patternFile") <->
     exists bytes,
       {| dir := outputPatternsDir; fileName := baseName_of file ++ "_pattern.png";
          data := Bitmap bytes |} ∈ ws) /\
  (forall v, brush !! "patternFile" = Some v -> v = JStr (baseName_of file ++ "_pattern.png")).
Proof.
  intros Hrun Hin.
  unfold processFile, eff_bind, eff_try, eff_ret, writeToDisk, savePatternBitmap,
    writeFileSync in Hrun.
  repeat (case_match; simplify_eq/=).
  all: try (by apply elem_of_nil in Hin).
  all: repeat (apply elem_of_cons in Hin as [Hin | Hin]); simplify_eq/=.
  all: try (by apply elem_of_nil in Hin).
  all: try match goal with
           | H : extractBrushParameters _ _ = Some _ |- _ =>
               rewrite ?lookup_insert_eq, ?(lookup_patternFile _ _ _ H)
           end.
  all: split; [split | intros v Hv; by simplify_eq].
  all: try (by intros [? ?]).
  all: try (intros [bytes Hb];
            repeat (apply elem_of_cons in Hb as [Hb | Hb]; [done|]);
            by apply elem_of_nil in Hb).
  all: try (intros _; eexists;
            repeat first [apply list_elem_of_here | apply list_elem_of_further]).
  all: by eauto.
Qed.

Example ink_is_processed : processFile sample_host "ink.kpp" [] = (ink_run, Some Completed).
Proof. vm_compute. reflexivity. Qed.

Lemma patternFile_iff_pattern_saved_witness :
  (is_Some (ink_brush !! "patternFile") <->
     exists bytes,
       {| dir := outputPatternsDir; fileName := baseName_of "ink.kpp" ++ "_pattern.png";
          data := Bitmap bytes |} ∈ ink_run) /\
  (forall v, ink_brush !! "patternFile" = Some v ->
     v = JStr (baseName_of "ink.kpp" ++ "_pattern.png")).
Proof.
  apply (patternFile_iff_pattern_saved sample_host "ink.kpp" ink_run (Some Completed)
           (JStr "Ink") (JStr "paintbrush") ink_brush).
  - exact ink_is_processed.
  - unfold ink_run. do 3 apply list_elem_of_further. apply list_elem_of_here.
Defined.

(** A pattern parameter that is not a string has no [replace]: the save
    fails, no pattern file is written and the brush output has no
    [patternFile]. *)
Example number_pattern_is_not_saved :
  savePatternBitmap sample_host (JNum 50) outputPatternsDir "n_pattern.png" []
    = ([], Some false).
Proof. reflexivity. Qed.

(** ** The batch *)

(** A file whose processing throws leaves the files written so far in
    place, and the loop goes on with the next entry. *)
Lemma processAll_cons host file files :
  processAll host (file :: files) =
  fold_left (fun ws f => (processFile host f ws).1) files (processFile host file []).1.
Proof. reflexivity. Qed.

Example batch_survives_a_throw :
  processAll sample_host ["missing.kpp"; "plain.kpp"; "ink.kpp"] = ink_run.
Proof. vm_compute. reflexivity. Qed.

(** A file whose strength has no string conversion: the raw text and the
    preset JSON are written, then [extractBrushParameters] throws; no
    pattern and no brush JSON are written for it. *)
Example unconvertible_strength_stops_the_file :
  processFile sample_host "strength.kpp" [] =
    ([ {| dir := outputXmlDir; fileName := "strength.xml";
          data := RawText "<Preset><param name='Texture/Pattern/Pattern'>SGk=</param><param name='Texture/Pattern/Strength'><value><toString>x</toString></value></param></Preset>" |};
       {| dir := outputJsonDir; fileName := "strength.json";
          data := PresetJson {| name := JStr ""; paintopid := JStr "";
                                parameters := parameters_of [
                                  ("Texture/Pattern/Pattern", JStr "SGk=");
                                  ("Texture/Pattern/Strength",
                                   record [("toString", JStr "x")])] |} |} ],
     None).
Proof. vm_compute. reflexivity. Qed.

(** * Further properties of the pipeline *)

(** ** What the parameter map can hold *)

Lemma param_value_cases p : truthy (param_value p) = true \/ param_value p = JStr "".
Proof.
  unfold param_value, or_else.
  destruct (truthy (prop p "value")) eqn:Hvalue; [by left|].
  destruct (truthy (prop p "text")) eqn:Htext; [by left|].
  destruct (truthy (prop p "cdata")) eqn:Hcdata; [by left|by right].
Qed.

Lemma own_assign_Some m k v k' v' :
  own (assign m k v) !! k' = Some v' ->
  (k' <> "__proto__" /\ v' = v) \/ own m !! k' = Some v'.
Proof.
  unfold assign. destruct (String.eqb_spec k "__proto__") as [->|Hk].
  - destruct v; by right.
  - simpl. intros [[<- <-]|[_ ?]]%lookup_insert_Some; [by left|by right].
Qed.

(** The loop keeps two invariants of the own properties: every value is
    truthy or the empty string, and [__proto__] is not a key. *)
Lemma flatten_params_invariant host ps : forall acc m,
  flatten_params host acc ps = Some m ->
  (forall k v, own acc !! k = Some v ->
     k <> "__proto__" /\ (truthy v = true \/ v = JStr "")) ->
  forall k v, own m !! k = Some v ->
    k <> "__proto__" /\ (truthy v = true \/ v = JStr "").
Proof.
  induction ps as [|p ps IH]; intros acc m Hrun Hacc; simpl in Hrun.
  - by injection Hrun as <-.
  - destruct (flatten_step host acc p) as [acc'|] eqn:Hstep; [|done]. simpl in Hrun.
    apply (IH _ _ Hrun). intros k v Hk.
    unfold flatten_step in Hstep.
    destruct (read p "name") as [nm|]; [|done]. simpl in Hstep.
    destruct (truthy nm); [|injection Hstep as <-; by apply Hacc].
    destruct (to_string host nm) as [key|]; [|done]. injection Hstep as <-.
    apply own_assign_Some in Hk as [[Hne ->]|Hk]; [|by apply Hacc].
    split; [done|apply param_value_cases].
Qed.

Lemma empty_parameters_invariant k v :
  own empty_parameters !! k = Some v ->
  k <> "__proto__" /\ (truthy v = true \/ v = JStr "").
Proof. done. Qed.

(** X1: whatever the parsed tree, every value the decoder stores in the
    parameter map is truthy or the empty string: the map never holds
    null, undefined, zero, NaN or false. *)
Theorem decoded_values_truthy_or_empty host jsonObj t k v :
  transform host jsonObj = Some t ->
  own (parameters t) !! k = Some v ->
  truthy v = true \/ v = JStr "".
Proof.
  unfold transform. intros Hrun Hk.
  destruct (read jsonObj "Preset") as [preset|]; [|done]. simpl in Hrun.
  destruct (truthy (read_opt preset "param")).
  - destruct (flatten_params host empty_parameters _) as [m|] eqn:Hm; [|done].
    injection Hrun as <-. simpl in Hk.
    by destruct (flatten_params_invariant _ _ _ _ Hm empty_parameters_invariant _ _ Hk).
  - by injection Hrun as <-.
Qed.

Lemma decoded_values_truthy_or_empty_witness :
  truthy (JStr "") = true \/ JStr "" = JStr "".
Proof.
  apply (decoded_values_truthy_or_empty sample_host
           (record [("Preset", record [
              ("name", JStr "Ink"); ("paintopid", JStr "paintbrush");
              ("param", record [("name", JStr "OpacityValue"); ("value", JNum 0)])])])
           {| name := JStr "Ink"; paintopid := JStr "paintbrush";
              parameters := parameters_of [("OpacityValue", JStr "")] |}
           "OpacityValue"); reflexivity.
Defined.

(** X2: the decoded parameter map never has [__proto__] among its own
    keys, whatever the names of the entries: an entry so named is not
    stored (and so is not in the written JSON). *)
Theorem decoded_map_has_no_proto_key host jsonObj t :
  transform host jsonObj = Some t ->
  own (parameters t) !! "__proto__" = None.
Proof.
  unfold transform. intros Hrun.
  destruct (read jsonObj "Preset") as [preset|]; [|done]. simpl in Hrun.
  destruct (truthy (read_opt preset "param")).
  - destruct (flatten_params host empty_parameters _) as [m|] eqn:Hm; [|done].
    injection Hrun as <-. simpl.
    destruct (own m !! "__proto__") as [v|] eqn:Hk; [|done].
    by destruct (flatten_params_invariant _ _ _ _ Hm empty_parameters_invariant _ _ Hk).
  - by injection Hrun as <-.
Qed.

Lemma decoded_map_has_no_proto_key_witness :
  own (parameters_of [("a", JStr "1")]) !! "__proto__" = None.
Proof.
  apply (decoded_map_has_no_proto_key sample_host
           (record [("Preset", record [("param", JArr [
              record [("name", JStr "__proto__"); ("value", JStr "x")];
              record [("name", JStr "a"); ("value", JStr "1")]])])])
           {| name := JStr ""; paintopid := JStr "";
              parameters := parameters_of [("a", JStr "1")] |}).
  reflexivity.
Defined.

(** ** When the decoder throws *)

Lemma flatten_step_None host acc p :
  flatten_step host acc p = None <-> throwing_entry host p.
Proof.
  unfold flatten_step, throwing_entry, read. destruct (nullish p); simpl.
  - split; [by left|done].
  - destruct (truthy _); [destruct (to_string host _); simpl|].
    + split; [done|]. by intros [?|[_ ?]].
    + split; [by right|done].
    + split; [done|]. by intros [?|[? _]].
Qed.

Lemma flatten_params_None host ps : forall acc,
  flatten_params host acc ps = None <-> Exists (throwing_entry host) ps.
Proof.
  induction ps as [|p ps IH]; intros acc; simpl.
  - split; [done|]. by intros ?%Exists_nil.
  - rewrite Exists_cons. destruct (flatten_step host acc p) as [acc'|] eqn:Hstep; simpl.
    + rewrite IH. split; [by right|]. intros [Hp|?]; [|done].
      apply (flatten_step_None host acc) in Hp. congruence.
    + split; [|done]. intros _. left. by apply (flatten_step_None host acc).
Qed.

(** X3: the decoder throws in these cases only: the parsed tree itself
    is null or undefined, or the param list is present and holds an
    entry that is null or undefined (the read of its name is the
    TypeError) or whose name is truthy and cannot be converted to a
    property key (a record with a field [toString] of its own).  A
    missing root, a missing list, entries without a name and entries
    that are strings or numbers never make it throw. *)
Theorem transform_throws_iff host jsonObj :
  transform host jsonObj = None <->
  nullish jsonObj = true \/
  (truthy (read_opt (prop jsonObj "Preset") "param") = true /\
   Exists (throwing_entry host)
     (as_sequence (read_opt (prop jsonObj "Preset") "param"))).
Proof.
  unfold transform, read. destruct (nullish jsonObj); simpl.
  - split; [by left|done].
  - destruct (truthy (read_opt (prop jsonObj "Preset") "param")); simpl.
    + destruct (flatten_params host empty_parameters _) as [m|] eqn:Hm; simpl.
      * split; [done|]. intros [?|[_ Hex]]; [done|].
        apply (flatten_params_None host _ empty_parameters) in Hex. congruence.
      * split; [|done]. intros _. right. split; [done|].
        by apply (flatten_params_None host _ empty_parameters).
    + split; [done|]. by intros [?|[? _]].
Qed.

(** ** Order of the entries *)

Lemma filter_Permutation {A} (f : A -> bool) (l l' : list A) :
  l ≡ₚ l' -> List.filter f l ≡ₚ List.filter f l'.
Proof.
  induction 1 as [|x l l' _ IH|x y l|l l' l'' _ IH1 _ IH2]; simpl.
  - done.
  - destruct (f x); [by constructor|done].
  - destruct (f x), (f y); try done. apply perm_swap.
  - by etrans.
Qed.

Lemma last_Permutation_short {A} (l l' : list A) :
  l ≡ₚ l' -> (length l <= 1)%nat -> last l = last l'.
Proof.
  intros Hperm Hlen. destruct l as [|x [|y l]]; simpl in Hlen; [| |lia].
  - by apply Permutation_nil_l in Hperm as <-.
  - by apply Permutation_singleton_l in Hperm as <-.
Qed.

(** X4: when the loop goes through every entry of the param list (none
    is null or undefined, every truthy name converts to a key) and no two
    entries are stored under the same key, the order of the entries does
    not matter: any permutation of the list decodes, and to the same own
    properties. *)
Theorem flatten_order_independent host ps ps' :
  ps ≡ₚ ps' ->
  Forall (storable host) ps ->
  (forall k, (length (List.filter (bears host k) ps) <= 1)%nat) ->
  exists m m',
    flatten_params host empty_parameters ps = Some m /\
    flatten_params host empty_parameters ps' = Some m' /\
    own m = own m'.
Proof.
  intros Hperm Hall Hdistinct.
  assert (Hall' : Forall (storable host) ps') by by rewrite <- Hperm.
  destruct (flatten_params_returns host _ empty_parameters Hall) as [m Hm].
  destruct (flatten_params_returns host _ empty_parameters Hall') as [m' Hm'].
  exists m, m'. repeat split; [done..|].
  apply map_eq. intros k.
  destruct (String.eqb_spec k "__proto__") as [->|Hk].
  - destruct (own m !! "__proto__") as [v|] eqn:Hv.
    { by destruct (flatten_params_invariant _ _ _ _ Hm empty_parameters_invariant _ _ Hv). }
    destruct (own m' !! "__proto__") as [v|] eqn:Hv'; [|done].
    by destruct (flatten_params_invariant _ _ _ _ Hm' empty_parameters_invariant _ _ Hv').
  - rewrite (own_flatten_params _ _ _ _ _ Hm Hk), (own_flatten_params _ _ _ _ _ Hm' Hk).
    by rewrite (last_Permutation_short _ _ (filter_Permutation (bears host k) _ _ Hperm)
                  (Hdistinct k)).
Qed.

Lemma flatten_order_independent_witness :
  exists m m',
    flatten_params sample_host empty_parameters
      [record [("name", JStr "a"); ("value", JStr "1")];
       record [("name", JStr "b"); ("cdata", JStr "x")]] = Some m /\
    flatten_params sample_host empty_parameters
      [record [("name", JStr "b"); ("cdata", JStr "x")];
       record [("name", JStr "a"); ("value", JStr "1")]] = Some m' /\
    own m = own m'.
Proof.
  apply (flatten_order_independent sample_host).
  - apply perm_swap.
  - repeat (apply Forall_cons; split; [split; [reflexivity|intros _; by eexists]|]).
    by apply Forall_nil.
  - intros k. cbn [List.filter].
    change (bears sample_host k (record [("name", JStr "a"); ("value", JStr "1")]))
      with (String.eqb "a" k).
    change (bears sample_host k (record [("name", JStr "b"); ("cdata", JStr "x")]))
      with (String.eqb "b" k).
    destruct (String.eqb_spec "a" k) as [<-|_]; [simpl; lia|].
    destruct (String.eqb "b" k); simpl; lia.
Defined.

(** ** The descriptor *)

Lemma or_null_cases o f : or_null o f = JNull \/ truthy (or_null o f) = true.
Proof.
  unfold or_null, or_else. destruct (truthy (prop o f)) eqn:Hf; [by right|by left].
Qed.

(** X5: [parseBrushDefinition] yields a descriptor exactly when the
    parse returns a tree (one that is not null or undefined) whose
    [Brush] field is truthy; in every other case (the parser throws, the
    read of [Brush] throws, there is no [Brush], or it is empty) the
    result is null, and nothing is thrown to the caller. *)
Theorem parseBrushDefinition_is_Some host brushDefXml :
  is_Some (parseBrushDefinition host brushDefXml) <->
  exists parsed,
    xml_parse host brushDefXml = Some parsed /\
    nullish parsed = false /\
    truthy (prop parsed "Brush") = true.
Proof.
  unfold parseBrushDefinition, read.
  destruct (xml_parse host brushDefXml) as [parsed|]; simpl.
  - destruct (nullish parsed) eqn:Hnull; simpl.
    + split; [by intros [? ?]|]. intros (? & [= <-] & ? & _). congruence.
    + destruct (truthy (prop parsed "Brush")) eqn:Hbrush.
      * split; [eauto|]. by eexists.
      * split; [by intros [? ?]|]. intros (? & [= <-] & _ & ?). congruence.
  - split; [by intros [? ?]|]. by intros (? & ? & _).
Qed.

(** X6: every field of a descriptor, and of its mask generator, is
    either null or a truthy value: the descriptor never holds undefined,
    zero, NaN, false or the empty string. *)
Theorem descriptor_fields_null_or_truthy host brushDefXml brushDef :
  parseBrushDefinition host brushDefXml = Some brushDef ->
  Forall (fun v => v = JNull \/ truthy v = true)
    [ BrushDef.type brushDef; BrushDef.spacing brushDef; BrushDef.angle brushDef;
      BrushDef.scale brushDef; BrushDef.randomness brushDef; BrushDef.density brushDef;
      BrushDef.filename brushDef ] /\
  forall mask, BrushDef.maskGenerator brushDef = Some mask ->
    Forall (fun v => v = JNull \/ truthy v = true)
      [ MaskGen.type mask; MaskGen.diameter mask; MaskGen.ratio mask;
        MaskGen.hfade mask; MaskGen.vfade mask; MaskGen.spikes mask ].
Proof.
  unfold parseBrushDefinition. intros Hparse.
  destruct (xml_parse host brushDefXml) as [parsed|]; [|done]. simpl in Hparse.
  destruct (read parsed "Brush") as [brush|]; [|done]. simpl in Hparse.
  destruct (truthy brush); [|done]. injection Hparse as <-. simpl. split.
  - repeat (apply Forall_cons; split; [apply or_null_cases|]). by apply Forall_nil.
  - intros mask Hmask. destruct (truthy (prop brush "MaskGenerator")); [|done].
    injection Hmask as <-. unfold mask_of. simpl.
    repeat (apply Forall_cons; split; [apply or_null_cases|]). by apply Forall_nil.
Qed.

Lemma descriptor_fields_null_or_truthy_witness :
  let brushDef :=
    {| BrushDef.type := JNull; BrushDef.spacing := JNull; BrushDef.angle := JNull;
       BrushDef.scale := JNull; BrushDef.randomness := JNull;
       BrushDef.density := JNull; BrushDef.filename := JNull;
       BrushDef.maskGenerator :=
         Some {| MaskGen.type := JStr "circle"; MaskGen.diameter := JNull;
                 MaskGen.ratio := JNull; MaskGen.hfade := JNull;
                 MaskGen.vfade := JNull; MaskGen.spikes := JNull |} |} in
  Forall (fun v => v = JNull \/ truthy v = true)
    [ BrushDef.type brushDef; BrushDef.spacing brushDef; BrushDef.angle brushDef;
      BrushDef.scale brushDef; BrushDef.randomness brushDef; BrushDef.density brushDef;
      BrushDef.filename brushDef ] /\
  forall mask, BrushDef.maskGenerator brushDef = Some mask ->
    Forall (fun v => v = JNull \/ truthy v = true)
      [ MaskGen.type mask; MaskGen.diameter mask; MaskGen.ratio mask;
        MaskGen.hfade mask; MaskGen.vfade mask; MaskGen.spikes mask ].
Proof.
  intros brushDef.
  apply (descriptor_fields_null_or_truthy sample_host
           (JStr "<Brush spacing='0'><MaskGenerator type='circle'/></Brush>")).
  reflexivity.
Defined.

(** ** The keys and values of the brush output *)

Lemma set_when_Some c key v (d : gmap string JsVal) k v' :
  set_when c key v d !! k = Some v' ->
  (key = k /\ c = true /\ v' = v) \/ d !! k = Some v'.
Proof.
  unfold set_when. destruct c; [|by right].
  intros [[<- <-]|[_ ?]]%lookup_insert_Some; [by left|by right].
Qed.

Lemma sensor_step_Some parameters d entry k v' :
  sensor_step parameters d entry !! k = Some v' ->
  (entry.2 = k /\ present v' = true) \/ d !! k = Some v'.
Proof.
  unfold sensor_step. destruct (_ && _); [|by right].
  intros [(<- & Hc & ->)|?]%set_when_Some; [by left|by right].
Qed.

Lemma literal_elem_of (l : list string) k : existsb (String.eqb k) l = true -> k ∈ l.
Proof.
  intros Hex. apply existsb_exists in Hex as (s & Hin & Heq).
  apply String.eqb_eq in Heq as ->. by apply list_elem_of_In.
Qed.

Lemma null_or_truthy_present v :
  v = JNull \/ truthy v = true -> present v = true -> truthy v = true.
Proof. by intros [->|?]. Qed.

(** The keys and values of the shape stage: a shape key, with a truthy
    value. *)
Lemma shape_stage_Some host parameters k v :
  (if truthy (param parameters "brush_definition") then
     match parseBrushDefinition host (param parameters "brush_definition") with
     | Some brushDef => shape_fields brushDef ∅
     | None => ∅
     end
   else ∅) !! k = Some v ->
  k ∈ shape_keys /\ truthy v = true.
Proof.
  destruct (truthy _); [|done].
  destruct (parseBrushDefinition _ _) as [brushDef|] eqn:Hparse; [|done].
  destruct (descriptor_fields_null_or_truthy _ _ _ Hparse) as [Hfields Hmask].
  repeat (apply Forall_cons in Hfields as [? Hfields]).
  unfold shape_fields. intros Hk.
  destruct (BrushDef.maskGenerator brushDef) as [mask|].
  - specialize (Hmask _ eq_refl).
    repeat (apply Forall_cons in Hmask as [? Hmask]).
    repeat (apply set_when_Some in Hk as [(<- & ? & ->) | Hk];
            [split; [by apply literal_elem_of|by auto using null_or_truthy_present]|]).
    done.
  - repeat (apply set_when_Some in Hk as [(<- & ? & ->) | Hk];
            [split; [by apply literal_elem_of|by auto using null_or_truthy_present]|]).
    done.
Qed.

(** The keys and values written before the pattern block. *)
Lemma before_pattern_Some host parameters k v :
  before_pattern host parameters !! k = Some v ->
  k ∈ output_keys /\ present v = true.
Proof.
  unfold before_pattern. intros Hin. cbn [fold_left sensorMappings] in Hin.
  repeat (apply sensor_step_Some in Hin as [(<- & ?) | Hin];
          [split; [by apply literal_elem_of|done]|]).
  repeat (apply set_when_Some in Hin as [(<- & ? & ->) | Hin];
          [split; [by apply literal_elem_of|done]|]).
  destruct (shape_stage_Some _ _ _ _ Hin) as [Hshape Htruthy]. split.
  - unfold output_keys. apply elem_of_app. by left.
  - unfold present. by rewrite truthy_not_nullish.
Qed.

(** X7: the brush output holds no key outside the twenty-two keys of
    the projection table, and no value that is null or undefined. *)
Theorem brush_output_keys_and_values host parameters out k v :
  extractBrushParameters host parameters = Some out ->
  out !! k = Some v ->
  k ∈ output_keys /\ present v = true.
Proof.
  intros Hout Hk. rewrite (lookup_extract _ _ _ k Hout) in Hk.
  destruct (truthy (param parameters "Texture/Pattern/Pattern")
            && present (param parameters "Texture/Pattern/Strength")
            && String.eqb "patternStrength" k) eqn:Hstrength.
  - apply andb_true_iff in Hstrength as [_ <-%String.eqb_eq].
    destruct (parseFloat host _); [|done]. injection Hk as <-.
    split; [by apply literal_elem_of|done].
  - destruct (truthy (param parameters "Texture/Pattern/Pattern")
              && present (param parameters "Texture/Pattern/Scale")
              && String.eqb "patternScale" k) eqn:Hscale.
    + apply andb_true_iff in Hscale as [[_ Hpresent]%andb_true_iff <-%String.eqb_eq].
      injection Hk as <-. split; [by apply literal_elem_of|done].
    + by apply before_pattern_Some in Hk.
Qed.

Lemma brush_output_keys_and_values_witness :
  "opacity" ∈ output_keys /\ present (JNum 0.5) = true.
Proof.
  apply (brush_output_keys_and_values sample_host
           (parameters_of [("brush_definition", JStr "<Brush");
                           ("OpacityValue", JNum 0.5)])
           {[ "opacity" := JNum 0.5 ]}).
  - vm_compute. reflexivity.
  - reflexivity.
Defined.

(** X8: a shape key of the brush output never holds a falsy value: a
    spacing, angle, scale, randomness, density or mask-generator number
    that is zero, and an empty type or file name, are left out. *)
Theorem shape_values_are_truthy host parameters out k v :
  k ∈ shape_keys ->
  extractBrushParameters host parameters = Some out ->
  out !! k = Some v ->
  truthy v = true.
Proof.
  intros Hk Hout. rewrite (lookup_extract_shape_key _ _ _ _ Hout Hk).
  intros Hv. by destruct (shape_stage_Some _ _ _ _ Hv).
Qed.

Lemma shape_values_are_truthy_witness : truthy (JNum 0.5) = true.
Proof.
  apply (shape_values_are_truthy sample_host
           (parameters_of [("brush_definition",
              JStr "<Brush type='auto' spacing='0.5'><MaskGenerator diameter='50' ratio='2'/></Brush>")])
           {[ "type" := JStr "auto"; "spacing" := JNum 0.5; "size" := JNum 50;
              "roundness" := JNum 2 ]}
           "spacing").
  - by apply literal_elem_of.
  - vm_compute. reflexivity.
  - reflexivity.
Defined.

(** ** The dynamic properties *)

(** X9: in the output the function returns, opacity, scatter and flow
    are emitted exactly when their parameter is present, with the value
    of the parameter, whatever the brush definition and the pattern
    parameters are; a present empty string or zero is emitted as it
    is. *)
Theorem dynamic_properties_iff_present host parameters out :
  extractBrushParameters host parameters = Some out ->
  out !! "opacity" =
    (if present (param parameters "OpacityValue")
     then Some (param parameters "OpacityValue") else None) /\
  out !! "scatter" =
    (if present (param parameters "ScatterValue")
     then Some (param parameters "ScatterValue") else None) /\
  out !! "flow" =
    (if present (param parameters "FlowValue")
     then Some (param parameters "FlowValue") else None).
Proof.
  intros Hout.
  split_all; output_lookup Hout; unfold before_pattern; brush_lookup;
    rewrite lookup_shape_stage_other by (by apply not_shape_key);
    by destruct (present _).
Qed.

Lemma dynamic_properties_iff_present_witness :
  let parameters := parameters_of [("OpacityValue", JStr ""); ("FlowValue", JNum 0)] in
  exists out,
    extractBrushParameters sample_host parameters = Some out /\
    out !! "opacity" =
      (if present (param parameters "OpacityValue")
       then Some (param parameters "OpacityValue") else None) /\
    out !! "scatter" =
      (if present (param parameters "ScatterValue")
       then Some (param parameters "ScatterValue") else None) /\
    out !! "flow" =
      (if present (param parameters "FlowValue")
       then Some (param parameters "FlowValue") else None).
Proof.
  intros parameters. exists {[ "opacity" := JStr ""; "flow" := JNum 0 ]}.
  assert (Hout : extractBrushParameters sample_host parameters
                 = Some {[ "opacity" := JStr ""; "flow" := JNum 0 ]})
    by (vm_compute; reflexivity).
  split; [exact Hout|].
  exact (dynamic_properties_iff_present sample_host parameters _ Hout).
Defined.

Lemma lookup_sensor_keys host parameters out :
  extractBrushParameters host parameters = Some out ->
  Forall (fun entry =>
    out !! entry.2 =
      if truthy (param parameters entry.1)
         && truthy (prop (param parameters entry.1) "params")
         && present (prop (prop (param parameters entry.1) "params") "curve")
      then Some (prop (prop (param parameters entry.1) "params") "curve")
      else None) sensorMappings.
Proof.
  intros Hout. unfold sensorMappings.
  repeat (apply Forall_cons; split;
    [ cbn [fst snd]; output_lookup Hout; unfold before_pattern; brush_lookup;
      rewrite lookup_shape_stage_other by (by apply not_shape_key);
      by destruct (_ && _) | ]).
  by apply Forall_nil.
Qed.

(** X10: in the output the function returns, for each of the five
    sensors, the pressure key is emitted exactly when the sensor
    parameter is truthy, its [params] field is truthy and the [curve]
    under it is present; the value is that curve. *)
Theorem sensor_curves_iff_present host parameters out paramKey outputKey :
  extractBrushParameters host parameters = Some out ->
  (paramKey, outputKey) ∈ sensorMappings ->
  out !! outputKey =
    if truthy (param parameters paramKey)
       && truthy (prop (param parameters paramKey) "params")
       && present (prop (prop (param parameters paramKey) "params") "curve")
    then Some (prop (prop (param parameters paramKey) "params") "curve")
    else None.
Proof.
  intros Hout Hin. pose proof (lookup_sensor_keys host parameters out Hout) as Hall.
  rewrite Forall_forall in Hall. exact (Hall _ Hin).
Qed.

Lemma sensor_curves_iff_present_witness :
  exists out,
    extractBrushParameters sample_host
      (parameters_of [("SizeSensor", record [("params", record [("curve", JStr "0,0;1,1;")])])])
    = Some out /\
    out !! "pressureSize" = Some (JStr "0,0;1,1;").
Proof.
  exists {[ "pressureSize" := JStr "0,0;1,1;" ]}.
  split; [vm_compute; reflexivity|].
  exact (sensor_curves_iff_present sample_host
           (parameters_of [("SizeSensor", record [("params", record [("curve", JStr "0,0;1,1;")])])])
           {[ "pressureSize" := JStr "0,0;1,1;" ]}
           "SizeSensor" "pressureSize"
           eq_refl
           (list_elem_of_further _ _ _ (list_elem_of_here _ _))).
Defined.

(** X11: a sensor parameter that is not a record (in particular a
    string, which is what a parameter given as text or CDATA decodes to)
    gives no pressure key. *)
Theorem text_sensor_has_no_curve host parameters out paramKey outputKey :
  extractBrushParameters host parameters = Some out ->
  (paramKey, outputKey) ∈ sensorMappings ->
  (forall o, param parameters paramKey <> JObj o) ->
  out !! outputKey = None.
Proof.
  intros Hout Hin Htext.
  pose proof (lookup_sensor_keys host parameters out Hout) as Hall.
  rewrite Forall_forall in Hall. specialize (Hall _ Hin). simpl in Hall.
  rewrite Hall.
  destruct (param parameters paramKey) eqn:Hparam; simpl;
    rewrite ?andb_false_r; try done.
  by destruct (Htext fields).
Qed.

Lemma text_sensor_has_no_curve_witness :
  exists out,
    extractBrushParameters sample_host
      (parameters_of [("OpacitySensor",
         JStr "<params id='pressure'><curve>0,0;1,1;</curve></params>")])
    = Some out /\
    out !! "pressureOpacity" = None.
Proof.
  exists ∅. split; [vm_compute; reflexivity|].
  apply (text_sensor_has_no_curve sample_host
           (parameters_of [("OpacitySensor",
              JStr "<params id='pressure'><curve>0,0;1,1;</curve></params>")])
           ∅ "OpacitySensor" "pressureOpacity").
  - vm_compute. reflexivity.
  - apply list_elem_of_here.
  - intros o. discriminate.
Defined.

(** ** What the prefix pattern removes *)

Lemma take_drop_while p s : take_while p s ++ drop_while p s = s.
Proof.
  induction s as [|c s IH]; [done|].
  cbn [take_while drop_while]. destruct (p c); [|done].
  change (String c (take_while p s) ++ drop_while p s)
    with (String c (take_while p s ++ drop_while p s)).
  by rewrite IH.
Qed.

Lemma all_chars_take_while p s : all_chars p (take_while p s) = true.
Proof.
  induction s as [|c s IH]; simpl; [done|].
  destruct (p c) eqn:Hc; simpl; [by rewrite Hc|done].
Qed.

(** X12: [savePatternBitmap] never alters the payload text beyond the
    prefix: the text handed to the decoder is either the parameter
    unchanged, or the parameter with exactly one leading header
    [data:image/<word characters>;base64,] removed. *)
Theorem strip_data_uri_removes_only_a_header base64Data :
  strip_data_uri base64Data = base64Data \/
  exists subtype,
    subtype <> "" /\ all_chars is_word subtype = true /\
    base64Data = "data:image/" ++ subtype ++ ";base64," ++ strip_data_uri base64Data.
Proof.
  unfold strip_data_uri.
  destruct (strip_prefix "data:image/" base64Data) as [r|] eqn:Hprefix; [|by left].
  destruct (String.eqb_spec (take_while is_word r) "") as [|Hne]; [by left|].
  destruct (strip_prefix ";base64," (drop_while is_word r)) as [payload|] eqn:Hrest;
    [|by left].
  right. exists (take_while is_word r). split; [done|].
  split; [apply all_chars_take_while|].
  apply strip_prefix_Some in Hprefix, Hrest.
  by rewrite <- Hrest, take_drop_while.
Qed.

(** X13: the pattern has no global flag: a header whose subtype is a run
    of word characters is removed once, whatever follows it, so a second
    header behind the first stays in the text. *)
Theorem header_is_removed_once subtype rest :
  subtype <> "" ->
  all_chars is_word subtype = true ->
  strip_data_uri ("data:image/" ++ subtype ++ ";base64," ++ rest) = rest.
Proof. intros Hne Hword. by apply strip_data_uri_header. Qed.

Lemma header_is_removed_once_witness :
  strip_data_uri ("data:image/" ++ "png" ++ ";base64," ++ "data:image/png;base64,AAAA")
  = "data:image/png;base64,AAAA".
Proof.
  apply (header_is_removed_once "png" "data:image/png;base64,AAAA");
    [discriminate|reflexivity].
Defined.

(** ** Files are processed independently *)

(** What a file writes does not depend on what was written before it. *)
Lemma processFile_frame host file ws :
  processFile host file ws =
    ((ws ++ (processFile host file []).1)%list, (processFile host file []).2).
Proof.
  unfold processFile, eff_bind, eff_try, eff_ret, writeToDisk, savePatternBitmap,
    writeFileSync.
  repeat (case_match; simplify_eq/=);
    by rewrite <- ?app_assoc, ?app_nil_r.
Qed.

Lemma processAll_from host files : forall ws,
  fold_left (fun ws file => (processFile host file ws).1) files ws =
  (ws ++ concat (map (fun file => (processFile host file []).1) files))%list.
Proof.
  induction files as [|file files IH]; intros ws; simpl.
  - by rewrite app_nil_r.
  - rewrite IH, processFile_frame. simpl. by rewrite app_assoc.
Qed.

(** X14: the run writes, in the order of the directory listing, what
    each entry ending in [.kpp] writes on its own: the other entries are
    ignored, and neither a skipped file nor one whose processing throws
    changes what the other files write. *)
Theorem main_is_concatenation host entries :
  main host entries =
  concat (map (fun file => (processFile host file []).1) (kpp_files entries)).
Proof. unfold main, processAll. by rewrite processAll_from. Qed.

(** ** What one file writes *)

(** X15: nothing at all is written for a file unless its preset tag is
    read and is not empty, the metadata parses, the decoder does not
    throw and the write of the raw text succeeds; and in that case
    something is written. *)
Theorem nothing_written_iff host file :
  (processFile host file []).1 = [] <->
  forall text jsonObj t,
    load_preset host file = Some (Some text) ->
    text <> "" ->
    xml_parse host (JStr text) = Some jsonObj ->
    transform host jsonObj = Some t ->
    write_ok host outputXmlDir (baseName_of file ++ ".xml") = false.
Proof.
  unfold processFile, eff_bind, eff_try, eff_ret, writeToDisk, savePatternBitmap,
    writeFileSync.
  split.
  - intros Hnil text jsonObj t Hload Htext Hparse Htransform.
    rewrite Hload in Hnil.
    assert (Htruthy : truthy (JStr text) = true).
    { simpl. by destruct (String.eqb_spec text "") as [->|]. }
    rewrite Htruthy, Hparse, Htransform in Hnil. cbn [negb] in Hnil.
    destruct (write_ok host outputXmlDir _); [|done].
    repeat (case_match; simplify_eq/=).
  - intros Hall.
    destruct (load_preset host file) as [[text|]|] eqn:Hload; [|done..].
    destruct (String.eqb_spec text "") as [->|Htext]; [done|].
    assert (Htruthy : truthy (JStr text) = true).
    { simpl. by destruct (String.eqb_spec text "") as [->|]. }
    rewrite Htruthy. cbn [negb].
    destruct (xml_parse host (JStr text)) as [jsonObj|] eqn:Hparse; [|done].
    destruct (transform host jsonObj) as [t|] eqn:Htransform; [|done].
    by rewrite (Hall _ _ _ eq_refl Htext Hparse Htransform).
Qed.

(** X16: the files written for one input come in a fixed order, at most
    one per directory: the raw text, then the preset JSON, then the
    pattern if any, then the brush JSON, each later one only after the
    earlier ones; every file name is the base name of the input followed
    by the suffix of its directory; and the file is reported completed
    exactly when its brush JSON was written. *)
Theorem writes_of_a_file host file :
  map dir (processFile host file []).1 ∈
    [ []; [outputXmlDir]; [outputXmlDir; outputJsonDir];
      [outputXmlDir; outputJsonDir; outputPatternsDir];
      [outputXmlDir; outputJsonDir; outputBrushesDir];
      [outputXmlDir; outputJsonDir; outputPatternsDir; outputBrushesDir] ] /\
  Forall (fun w => fileName w = baseName_of file ++ suffix_of (dir w))
    (processFile host file []).1 /\
  ((processFile host file []).2 = Some Completed <->
   outputBrushesDir ∈ map dir (processFile host file []).1).
Proof.
  unfold processFile, eff_bind, eff_try, eff_ret, writeToDisk, savePatternBitmap,
    writeFileSync.
  repeat (case_match; simplify_eq/=).
  all: split_all.
  all: try (repeat first [apply list_elem_of_here | apply list_elem_of_further]; fail).
  all: try (repeat (apply Forall_cons; split; [done|]); by apply Forall_nil).
  all: split; try done.
  all: try solve
         [intros _; repeat first [apply list_elem_of_here | apply list_elem_of_further]].
  all: intros Hin; repeat (apply elem_of_cons in Hin as [Hin|Hin]; [done|]);
       by apply elem_of_nil in Hin.
Qed.

(** X17: the outputs of a file agree with each other: the brush JSON
    carries the name and the paintopid of the preset JSON written before
    it, and its brush object is [extractBrushParameters] of the
    parameters in that preset JSON, with at most the key [patternFile]
    added. *)
Theorem brush_json_follows_preset_json host file t nm pid brush :
  {| dir := outputJsonDir; fileName := baseName_of file ++ ".json";
     data := PresetJson t |} ∈ (processFile host file []).1 ->
  {| dir := outputBrushesDir; fileName := baseName_of file ++ "_brush.json";
     data := BrushJson nm pid brush |} ∈ (processFile host file []).1 ->
  nm = name t /\ pid = paintopid t /\
  exists brushData,
    extractBrushParameters host (parameters t) = Some brushData /\
    (brush = brushData \/
     brush = <["patternFile" := JStr (baseName_of file ++ "_pattern.png")]> brushData).
Proof.
  unfold processFile, eff_bind, eff_try, eff_ret, writeToDisk, savePatternBitmap,
    writeFileSync.
  intros Hjson Hbrush.
  repeat (case_match; simplify_eq/=).
  all: repeat (apply elem_of_cons in Hjson as [Hjson|Hjson]); simplify_eq/=.
  all: try (by apply elem_of_nil in Hjson).
  all: repeat (apply elem_of_cons in Hbrush as [Hbrush|Hbrush]); simplify_eq/=.
  all: try (by apply elem_of_nil in Hbrush).
  all: split; [done|]; split; [done|]; eexists; split; [eassumption|]; auto.
Qed.

Lemma brush_json_follows_preset_json_witness :
  let t := {| name := JStr "Ink"; paintopid := JStr "paintbrush";
              parameters := parameters_of [
                ("Texture/Pattern/Pattern", JStr "SGk=");
                ("OpacityValue", JNum 0.5)] |} in
  JStr "Ink" = name t /\ JStr "paintbrush" = paintopid t /\
  exists brushData,
    extractBrushParameters sample_host (parameters t) = Some brushData /\
    (ink_brush = brushData \/
     ink_brush = <["patternFile" := JStr (baseName_of "ink.kpp" ++ "_pattern.png")]>
                   brushData).
Proof.
  intros t.
  apply (brush_json_follows_preset_json sample_host "ink.kpp" t _ _ ink_brush).
  - rewrite ink_is_processed. unfold ink_run.
    apply list_elem_of_further, list_elem_of_here.
  - rewrite ink_is_processed. unfold ink_run.
    do 3 apply list_elem_of_further. apply list_elem_of_here.
Defined.

(** X19: a pattern file, when one is written, holds the decoded text of
    the parameter [Texture/Pattern/Pattern] of the preset JSON of the
    same file, and that parameter is a string. *)
Theorem pattern_file_is_the_decoded_parameter host file t bytes :
  {| dir := outputJsonDir; fileName := baseName_of file ++ ".json";
     data := PresetJson t |} ∈ (processFile host file []).1 ->
  {| dir := outputPatternsDir; fileName := baseName_of file ++ "_pattern.png";
     data := Bitmap bytes |} ∈ (processFile host file []).1 ->
  exists s,
    param (parameters t) "Texture/Pattern/Pattern" = JStr s /\
    bytes = pattern_bytes s.
Proof.
  unfold processFile, eff_bind, eff_try, eff_ret, writeToDisk, savePatternBitmap,
    writeFileSync.
  intros Hjson Hpattern.
  repeat (case_match; simplify_eq/=).
  all: repeat (apply elem_of_cons in Hjson as [Hjson|Hjson]); simplify_eq/=.
  all: try (by apply elem_of_nil in Hjson).
  all: repeat (apply elem_of_cons in Hpattern as [Hpattern|Hpattern]); simplify_eq/=.
  all: try (by apply elem_of_nil in Hpattern).
  all: eauto.
Qed.

Lemma pattern_file_is_the_decoded_parameter_witness :
  exists s,
    param (parameters_of [("Texture/Pattern/Pattern", JStr "SGk=");
                          ("OpacityValue", JNum 0.5)]) "Texture/Pattern/Pattern" = JStr s /\
    ["H"; "i"]%byte = pattern_bytes s.
Proof.
  apply (pattern_file_is_the_decoded_parameter sample_host "ink.kpp"
           {| name := JStr "Ink"; paintopid := JStr "paintbrush";
              parameters := parameters_of [
                ("Texture/Pattern/Pattern", JStr "SGk=");
                ("OpacityValue", JNum 0.5)] |}).
  - rewrite ink_is_processed. unfold ink_run.
    apply list_elem_of_further, list_elem_of_here.
  - rewrite ink_is_processed. unfold ink_run.
    do 2 apply list_elem_of_further. apply list_elem_of_here.
Defined.

(** ** Output names *)

Lemma length_string_app s r : String.length (s ++ r) = (String.length s + String.length r)%nat.
Proof. induction s as [|c s IH]; simpl; [done|]. by rewrite IH. Qed.

Lemma substring_whole s : substring 0 (String.length s) s = s.
Proof. induction s as [|c s IH]; simpl; [done|]. by rewrite IH. Qed.

Lemma string_cons_app c s r : String c s ++ r = String c (s ++ r).
Proof. reflexivity. Qed.

Lemma substring_split s : forall n,
  (n <= String.length s)%nat ->
  substring 0 n s ++ substring n (String.length s - n) s = s.
Proof.
  induction s as [|c s IH]; intros n Hn; simpl in *.
  - by destruct n.
  - destruct n as [|n]; simpl.
    + by rewrite substring_whole.
    + rewrite string_cons_app, IH by lia. done.
Qed.

Lemma string_app_inj_r s : forall p q, p ++ s = q ++ s -> p = q.
Proof.
  induction p as [|a p IH]; intros q Heq.
  - destruct q as [|b q]; [done|].
    apply (f_equal String.length) in Heq. rewrite !length_string_app in Heq.
    simpl in Heq. lia.
  - destruct q as [|b q].
    + apply (f_equal String.length) in Heq. rewrite !length_string_app in Heq.
      simpl in Heq. lia.
    + simpl in Heq. injection Heq as -> Heq. by rewrite (IH _ Heq).
Qed.

Lemma baseName_of_kpp file :
  endsWith file ".kpp" = true -> baseName_of file ++ ".kpp" = file.
Proof.
  unfold endsWith, baseName_of. intros [Hlen Hend]%andb_true_iff.
  apply Nat.leb_le in Hlen. apply String.eqb_eq in Hend. simpl in Hlen, Hend.
  pose proof (substring_split file (String.length file - 4) ltac:(lia)) as Hsplit.
  replace (String.length file - (String.length file - 4))%nat with 4%nat in Hsplit by lia.
  by rewrite Hend in Hsplit.
Qed.

(** X18: for the entries the listing keeps, the base name followed by
    [.kpp] is the entry again, so two different input files never write
    to the same output file: in every output directory their file names
    differ. *)
Theorem output_names_are_distinct file file' d :
  endsWith file ".kpp" = true ->
  endsWith file' ".kpp" = true ->
  file <> file' ->
  baseName_of file ++ ".kpp" = file /\
  baseName_of file ++ suffix_of d <> baseName_of file' ++ suffix_of d.
Proof.
  intros Hfile Hfile' Hne. split; [by apply baseName_of_kpp|].
  intros Heq%string_app_inj_r. apply Hne.
  by rewrite <- (baseName_of_kpp _ Hfile), <- (baseName_of_kpp _ Hfile'), Heq.
Qed.

Lemma output_names_are_distinct_witness :
  baseName_of "ink.kpp" ++ ".kpp" = "ink.kpp" /\
  baseName_of "ink.kpp" ++ suffix_of outputBrushesDir <>
  baseName_of "ink2.kpp" ++ suffix_of outputBrushesDir.
Proof.
  apply (output_names_are_distinct "ink.kpp" "ink2.kpp" outputBrushesDir);
    [reflexivity|reflexivity|discriminate].
Defined.

(** The listing keeps the entries that end in [.kpp], in their order. *)
Example kpp_files_sample :
  kpp_files ["a.kpp"; "notes.txt"; ".kpp"; "b.kpp.bak"; "kpp"; "c.KPP"; "d.kpp"]
  = ["a.kpp"; ".kpp"; "d.kpp"].
Proof. reflexivity. Qed.
